(** * Operating-hours status of ContactManager (js/contact-manager.js)

    A shallow embedding of [checkCurrentStatus], [timeStringToNumber] and the
    hours part of [createHoursCard], together with the properties the
    specification states about the evaluator ([evaluate]) and the formatter
    ([describe]).

    Modelling choices, all taken from the JavaScript source:
    - the fetched hours document is a JSON value ([json]); a JavaScript
      [undefined] is [None] in an [option json];
    - strings are sequences of ASCII characters;
    - numbers produced by [parseInt] are exact integers or [NaN] (JavaScript
      doubles are exact on the integers of magnitude below 2^53);
    - an object is the list of its own properties in the order
      [Object.entries] enumerates them: array-index keys in ascending numeric
      order first, then the other keys in creation order;
    - a thrown [TypeError] is an explicit outcome; the status map mutated
      before the throw is kept, as the object [this.currentStatus] is.

    The rest of the class follows: [renderOperatingHours],
    [updateStatusDisplay], [fetchOperatingHours] and [init] over the cards
    of the hours container, the phone field's input filter, and
    [validateInquiryForm] with [handleFormSubmit]; helpers defined outside
    these sources ([apiCall], [validateEmail], [validatePhone],
    [getPhoneWithCountryCode]) enter as what they return. *)

From Stdlib Require Import ZArith NArith List Bool Ascii String Lia.
From Stdlib Require Import DecimalString Permutation Sorted.
Import ListNotations.

Local Open Scope string_scope.
Local Open Scope Z_scope.

(* ------------------------------------------------------------------ *)
(** ** JSON values as the page receives them *)

#[local] Set Warnings "-register-all".

Inductive json : Type :=
| JNull
| JBool (b : bool)
| JNum (n : Z)          (* only the zero-ness of a number is ever observed *)
| JStr (s : string)
| JArr (items : list json)
| JObj (props : list (string * json)).

(** ToBoolean on a value; [None] is [undefined]. *)
Definition truthy (v : option json) : bool :=
  match v with
  | None => false
  | Some JNull => false
  | Some (JBool b) => b
  | Some (JNum n) => negb (n =? 0)
  | Some (JStr s) => negb (s =? "")%string
  | Some (JArr _) => true
  | Some (JObj _) => true
  end.

(** Own-property lookup in a property list (first binding of the key). *)
Fixpoint assoc {A : Type} (k : string) (l : list (string * A)) : option A :=
  match l with
  | [] => None
  | (k', v) :: tl => if (k =? k')%string then Some v else assoc k tl
  end.

(** Outcome of a piece of code that may throw. *)
Inductive completion (A : Type) : Type :=
| Normal (a : A)
| TypeError.
Arguments Normal {A} a.
Arguments TypeError {A}.

(** [v[k]] for the property names this code reads from the hours document:
    the seven weekday names, [default], [open], [close] and [emergency].
    None of them is defined by a prototype or names an index, so on a
    primitive or an array the read gives [undefined]; on [null] (and on
    [undefined]) it throws. *)
Definition get (v : option json) (k : string) : completion (option json) :=
  match v with
  | None => TypeError
  | Some JNull => TypeError
  | Some (JObj props) => Normal (assoc k props)
  | Some _ => Normal None
  end.

(* ------------------------------------------------------------------ *)
(** ** Numbers: integers and NaN *)

Inductive number : Type :=
| NaN
| Num (z : Z).

(** [a * b] and [a + b] on integers (exact, as doubles are below 2^53) and
    NaN. *)
Definition num_mul (a b : number) : number :=
  match a, b with
  | Num x, Num y => Num (x * y)
  | _, _ => NaN
  end.

Definition num_add (a b : number) : number :=
  match a, b with
  | Num x, Num y => Num (x + y)
  | _, _ => NaN
  end.

(** [a >= b] and [a < b]: any comparison with NaN is false. *)
Definition num_ge (a b : number) : bool :=
  match a, b with
  | Num x, Num y => y <=? x
  | _, _ => false
  end.

Definition num_lt (a b : number) : bool :=
  match a, b with
  | Num x, Num y => x <? y
  | _, _ => false
  end.

(* ------------------------------------------------------------------ *)
(** ** parseInt and String.prototype.split(':') *)

Definition is_whitespace (c : ascii) : bool :=
  let n := nat_of_ascii c in
  ((9 <=? n) && (n <=? 13))%nat || (n =? 32)%nat.

Fixpoint trim_start (s : string) : string :=
  match s with
  | String c tl => if is_whitespace c then trim_start tl else s
  | EmptyString => EmptyString
  end.

(** Value of a character as a digit of the given radix (10 or 16). *)
Definition digit_value (radix : Z) (c : ascii) : option Z :=
  let n := Z.of_nat (nat_of_ascii c) in
  let d :=
    if (48 <=? n) && (n <=? 57) then Some (n - 48)
    else if (97 <=? n) && (n <=? 122) then Some (n - 87)
    else if (65 <=? n) && (n <=? 90) then Some (n - 55)
    else None in
  match d with
  | Some x => if x <? radix then Some x else None
  | None => None
  end.

(** The longest prefix of digits, read as a number; [None] when it is empty. *)
Fixpoint parse_digits (radix : Z) (acc : option Z) (s : string) : option Z :=
  match s with
  | String c tl =>
      match digit_value radix c with
      | Some d =>
          parse_digits radix
            (Some (match acc with Some a => a * radix + d | None => d end)) tl
      | None => acc
      end
  | EmptyString => acc
  end.

(** A leading [0x] or [0X] selects radix 16 and is removed. *)
Definition strip_hex_prefix (s : string) : option string :=
  match s with
  | String a (String b tl) =>
      if (a =? "0")%char && ((b =? "x")%char || (b =? "X")%char)
      then Some tl else None
  | _ => None
  end.

(** A leading sign is removed; [-] negates the result. *)
Definition strip_sign (s : string) : Z * string :=
  match s with
  | String c tl =>
      if (c =? "-")%char then (-1, tl)
      else if (c =? "+")%char then (1, tl)
      else (1, s)
  | EmptyString => (1, s)
  end.

(** [parseInt(s)] with no radix argument.  The result is the integer read;
    the double the code computes is that integer while it is below 2^53 in
    magnitude, and the properties below that depend on the number read are
    stated for strings within that range. *)
Definition parseInt_string (s : string) : number :=
  let '(sign, s2) := strip_sign (trim_start s) in
  let '(radix, s3) :=
    match strip_hex_prefix s2 with
    | Some tl => (16, tl)
    | None => (10, s2)
    end in
  match parse_digits radix None s3 with
  | Some m => Num (sign * m)
  | None => NaN
  end.

(** [parseInt(x)] where [x] is a string or [undefined] (converted by
    ToString to the text [undefined]). *)
Definition parseInt (x : option string) : number :=
  match x with
  | Some s => parseInt_string s
  | None => parseInt_string "undefined"
  end.

(** [s.split(':')]: the pieces between the colons, at least one piece. *)
Fixpoint split_colon (s : string) : list string :=
  match s with
  | EmptyString => [EmptyString]
  | String c tl =>
      if (c =? ":")%char then EmptyString :: split_colon tl
      else match split_colon tl with
           | piece :: rest => String c piece :: rest
           | [] => [String c EmptyString]
           end
  end.

(* ------------------------------------------------------------------ *)
(** ** ContactManager.timeStringToNumber *)

(** [if (!timeStr) return 0;
     const [hours, minutes] = timeStr.split(':');
     return parseInt(hours) * 100 + parseInt(minutes);]
    A truthy value that is not a string has no [split] method: the call
    throws. *)
Definition timeStringToNumber (timeStr : option json) : completion number :=
  if negb (truthy timeStr) then Normal (Num 0)
  else
    match timeStr with
    | Some (JStr s) =>
        let pieces := split_colon s in
        let hours := nth_error pieces 0 in
        let minutes := nth_error pieces 1 in
        Normal (num_add (num_mul (parseInt hours) (Num 100)) (parseInt minutes))
    | _ => TypeError
    end.

(* ------------------------------------------------------------------ *)
(** ** The clock: what [new Date()] supplies *)

Inductive Weekday : Type :=
| Monday | Tuesday | Wednesday | Thursday | Friday | Saturday | Sunday.

(** [toLocaleDateString('en-US', { weekday: 'long' })] *)
Definition day_name (d : Weekday) : string :=
  match d with
  | Monday => "Monday"
  | Tuesday => "Tuesday"
  | Wednesday => "Wednesday"
  | Thursday => "Thursday"
  | Friday => "Friday"
  | Saturday => "Saturday"
  | Sunday => "Sunday"
  end.

Record Date : Type := mkDate {
  weekday : Weekday;
  getHours : Z;       (* 0..23 *)
  getMinutes : Z      (* 0..59 *)
}.

Definition valid_date (now : Date) : Prop :=
  0 <= getHours now < 24 /\ 0 <= getMinutes now < 60.

(** [now.getHours() * 100 + now.getMinutes()] *)
Definition currentTime (now : Date) : number :=
  Num (getHours now * 100 + getMinutes now).

(* ------------------------------------------------------------------ *)
(** ** The status map [this.currentStatus] *)

Inductive Status : Type :=
| Open      (* the string 'open' *)
| Closed.   (* the string 'closed' *)

Definition status_map : Type := list (string * Status).

Definition is_decimal_digit (c : ascii) : bool :=
  let n := nat_of_ascii c in ((48 <=? n) && (n <=? 57))%nat.

Fixpoint decimal_value (acc : N) (s : string) : option N :=
  match s with
  | EmptyString => Some acc
  | String c tl =>
      if is_decimal_digit c
      then decimal_value (acc * 10 + N.of_nat (nat_of_ascii c - 48)) tl
      else None
  end.

(** A property key is an array index when it is the canonical decimal text
    of an integer below 2^32 - 1. *)
Definition array_index (k : string) : option N :=
  match k with
  | EmptyString => None
  | String "0" EmptyString => Some 0%N
  | String "0" _ => None
  | _ =>
      match decimal_value 0 k with
      | Some n => if (n <? 4294967295)%N then Some n else None
      | None => None
      end
  end.

(** Whether a new key [k] is enumerated before the existing key [k']. *)
Definition enumerated_before (k k' : string) : bool :=
  match array_index k with
  | Some i =>
      match array_index k' with
      | Some j => (i <? j)%N
      | None => true
      end
  | None => false
  end.

Fixpoint has_key {A : Type} (k : string) (l : list (string * A)) : bool :=
  match l with
  | [] => false
  | (k', _) :: tl => (k =? k')%string || has_key k tl
  end.

Fixpoint replace_value {A : Type} (k : string) (v : A) (l : list (string * A))
  : list (string * A) :=
  match l with
  | [] => []
  | (k', v') :: tl =>
      if (k =? k')%string then (k', v) :: tl
      else (k', v') :: replace_value k v tl
  end.

Fixpoint insert_new {A : Type} (k : string) (v : A) (l : list (string * A))
  : list (string * A) :=
  match l with
  | [] => [(k, v)]
  | (k', v') :: tl =>
      if enumerated_before k k' then (k, v) :: (k', v') :: tl
      else (k', v') :: insert_new k v tl
  end.

(** [this.currentStatus[unit] = status].  An existing own property keeps its
    place; a new one is created at its place in the enumeration order.  The
    key [__proto__] is the accessor of Object.prototype, whose setter ignores
    a string: nothing is stored. *)
Definition status_set (unit : string) (s : Status) (m : status_map) : status_map :=
  if (unit =? "__proto__")%string then m
  else if has_key unit m then replace_value unit s m
  else insert_new unit s m.

(** Names a plain object inherits from Object.prototype. *)
Definition object_prototype_names : list string :=
  [ "constructor"; "__defineGetter__"; "__defineSetter__"; "hasOwnProperty";
    "__lookupGetter__"; "__lookupSetter__"; "isPrototypeOf";
    "propertyIsEnumerable"; "toString"; "valueOf"; "__proto__";
    "toLocaleString" ].

(** What the read [this.currentStatus[unit]] gives. *)
Inductive status_read : Type :=
| Own (s : Status)     (* the string stored by an earlier pass *)
| Inherited            (* a function or object of Object.prototype *)
| Undefined.

Definition status_get (m : status_map) (unit : string) : status_read :=
  match assoc unit m with
  | Some s => Own s
  | None =>
      if existsb (String.eqb unit) object_prototype_names
      then Inherited else Undefined
  end.

(* ------------------------------------------------------------------ *)
(** ** ContactManager.checkCurrentStatus *)

Definition bind {A B : Type} (c : completion A) (k : A -> completion B)
  : completion B :=
  match c with
  | Normal a => k a
  | TypeError => TypeError
  end.

Notation "x <- c ;; k" := (bind c (fun x => k))
  (at level 61, c at next level, right associativity).

(** [hours[dayOfWeek] || hours['default']] *)
Definition dayHours_of (hours : json) (now : Date) : completion (option json) :=
  today <- get (Some hours) (day_name (weekday now)) ;;
  if truthy today then Normal today else get (Some hours) "default".

(** [currentTime >= openTime && currentTime < closeTime] *)
Definition isOpen (now : Date) (openTime closeTime : number) : bool :=
  num_ge (currentTime now) openTime && num_lt (currentTime now) closeTime.

(** The guard [dayHours && dayHours.open && dayHours.close], used by both
    methods. *)
Definition window_guard (dayHours : option json) : completion bool :=
  if truthy dayHours then
    open <- get dayHours "open" ;;
    if truthy open then
      close <- get dayHours "close" ;;
      Normal (truthy close)
    else Normal false
  else Normal false.

(** The status computed from the day data once it is resolved; [None] when
    the guard fails and nothing is assigned. *)
Definition window_status (dayHours : option json) (now : Date)
  : completion (option Status) :=
  ok <- window_guard dayHours ;;
  if ok then
    open <- get dayHours "open" ;;
    openTime <- timeStringToNumber open ;;
    close <- get dayHours "close" ;;
    closeTime <- timeStringToNumber close ;;
    Normal (Some (if isOpen now openTime closeTime then Open else Closed))
  else Normal None.

(** The body of the [forEach] callback for one [[unit, hours]] entry: the
    status it assigns to [this.currentStatus[unit]], if any. *)
Definition unit_status (hours : json) (now : Date) : completion (option Status) :=
  dayHours <- dayHours_of hours now ;;
  window_status dayHours now.

(** How one call of the method ends. *)
Inductive outcome : Type :=
| Returned
| Threw.

(** [entries.forEach(([unit, hours]) => ...)] over the status map. *)
Fixpoint forEach_status (entries : list (string * json)) (now : Date)
    (currentStatus : status_map) : status_map * outcome :=
  match entries with
  | [] => (currentStatus, Returned)
  | (unit, hours) :: tl =>
      match unit_status hours now with
      | TypeError => (currentStatus, Threw)
      | Normal None => forEach_status tl now currentStatus
      | Normal (Some s) => forEach_status tl now (status_set unit s currentStatus)
      end
  end.

(** Decimal text of an index. *)
Definition index_key (i : nat) : string :=
  NilEmpty.string_of_uint (Nat.to_uint i).

Fixpoint indexed {A : Type} (i : nat) (l : list A) : list (string * A) :=
  match l with
  | [] => []
  | a :: tl => (index_key i, a) :: indexed (S i) tl
  end.

Fixpoint characters (s : string) : list json :=
  match s with
  | EmptyString => []
  | String c tl => JStr (String c EmptyString) :: characters tl
  end.

(** [Object.entries(v)] for a value that is not [null]: the properties of an
    object, the indexed elements of an array or characters of a string,
    nothing for a number or a boolean. *)
Definition Object_entries (v : json) : list (string * json) :=
  match v with
  | JObj props => props
  | JArr items => indexed 0 items
  | JStr s => indexed 0 (characters s)
  | JNull | JBool _ | JNum _ => []
  end.

(** The method: [if (!this.hoursData) return;] then the pass over
    [Object.entries(this.hoursData)].  The final call of
    [updateStatusDisplay] only touches the page and is not part of the
    model. *)
Definition checkCurrentStatus (hoursData : json) (now : Date)
    (currentStatus : status_map) : status_map * outcome :=
  if negb (truthy (Some hoursData)) then (currentStatus, Returned)
  else forEach_status (Object_entries hoursData) now currentStatus.

(* ------------------------------------------------------------------ *)
(** ** ContactManager.createHoursCard *)

(** One [time-slot] block of [hoursHtml]: a day block interpolates the
    weekday and the stored [open] and [close] values, the last block the
    [emergency] value. *)
Inductive DisplayLine : Type :=
| DayLine (day : Weekday) (open close : json)
| EmergencyLine (text : json).

Definition days : list Weekday :=
  [Monday; Tuesday; Wednesday; Thursday; Friday; Saturday; Sunday].

(** Whether the conversion to a string of an interpolated value succeeds.
    An object with an own [toString] key (never callable in parsed JSON)
    has no string conversion: its [valueOf], own or inherited, gives no
    primitive either, and the template literal throws a TypeError.  Any
    other object gives the text of Object.prototype.toString; an array
    joins the conversions of its elements; a primitive always converts. *)
Fixpoint convertible (v : json) : bool :=
  match v with
  | JObj props => negb (has_key "toString" props)
  | JArr items =>
      (fix all (l : list json) : bool :=
         match l with
         | [] => true
         | x :: tl => convertible x && all tl
         end) items
  | JNull | JBool _ | JNum _ | JStr _ => true
  end.

(** [${v}] in a template literal: the value as it is shown, or the throw. *)
Definition interpolate (v : json) : completion json :=
  if convertible v then Normal v else TypeError.

(** The callback of [days.forEach]: the block appended for one day, if any. *)
Definition day_line (hours : json) (day : Weekday) : completion (list DisplayLine) :=
  dayHours <- get (Some hours) (day_name day) ;;
  ok <- window_guard dayHours ;;
  if ok then
    open <- get dayHours "open" ;;
    close <- get dayHours "close" ;;
    match open, close with
    | Some o, Some c =>
        o' <- interpolate o ;;
        c' <- interpolate c ;;
        Normal [DayLine day o' c']
    | _, _ => Normal []
    end
  else Normal [].

Fixpoint forEach_day (hours : json) (ds : list Weekday) (hoursHtml : list DisplayLine)
  : completion (list DisplayLine) :=
  match ds with
  | [] => Normal hoursHtml
  | d :: tl =>
      line <- day_line hours d ;;
      forEach_day hours tl (hoursHtml ++ line)%list
  end.

(** [hoursHtml] as [createHoursCard] builds it. *)
Definition hoursHtml (hours : json) : completion (list DisplayLine) :=
  html <- forEach_day hours days [] ;;
  emergency <- get (Some hours) "emergency" ;;
  match emergency with
  | Some e =>
      if truthy emergency then
        e' <- interpolate e ;;
        Normal (html ++ [EmergencyLine e'])%list
      else Normal html
  | None => Normal html
  end.

(** [const status = this.currentStatus[unit] || 'open';] and the badge
    chosen by [status === 'open']. *)
Definition card_status (unit : string) (currentStatus : status_map) : Status :=
  match status_get currentStatus unit with
  | Own s => s
  | Inherited => Closed
  | Undefined => Open
  end.

Record Card : Type := mkCard {
  badge : Status;
  lines : list DisplayLine
}.

(** The card of one unit; the icon and label of [config] play no role in
    the hours logic and are left out. *)
Definition createHoursCard (unit : string) (hours : json)
    (currentStatus : status_map) : completion Card :=
  let status := card_status unit currentStatus in
  html <- hoursHtml hours ;;
  Normal (mkCard status html).

(* ------------------------------------------------------------------ *)
(** ** Own keys of an object, and what one pass assigns *)

(** [k] may come before [k'] among the own keys of one object: array indices
    ascend and precede every other key, and no key occurs twice. *)
Definition key_order_ok (k k' : string) : bool :=
  match array_index k, array_index k' with
  | Some i, Some j => (i <? j)%N
  | Some _, None => true
  | None, Some _ => false
  | None, None => negb (k =? k')%string
  end.

(** The key list of an object as [Object.entries] yields it. *)
Fixpoint enumeration_order (ks : list string) : bool :=
  match ks with
  | [] => true
  | k :: tl => forallb (key_order_ok k) tl && enumeration_order tl
  end.

(** The status one pass assigns last to the key [k], if it assigns any
    before it throws or ends. *)
Fixpoint assigned_to (k : string) (entries : list (string * json)) (now : Date)
  : option Status :=
  match entries with
  | [] => None
  | (unit, hours) :: tl =>
      match unit_status hours now with
      | TypeError => None
      | Normal None => assigned_to k tl now
      | Normal (Some s) =>
          match assigned_to k tl now with
          | Some s' => Some s'
          | None =>
              if (k =? unit)%string && negb (unit =? "__proto__")%string
              then Some s else None
          end
      end
  end.

(** The units one pass assigns a status to, in the order it visits them. *)
Fixpoint assigned (entries : list (string * json)) (now : Date) : status_map :=
  match entries with
  | [] => []
  | (unit, hours) :: tl =>
      match unit_status hours now with
      | TypeError => []
      | Normal None => assigned tl now
      | Normal (Some s) =>
          if (unit =? "__proto__")%string then assigned tl now
          else (unit, s) :: assigned tl now
      end
  end.

(* ------------------------------------------------------------------ *)
(** ** Order and content of the display lines *)



(** A display line of [day] is due when the day's entry has a truthy [open]
    and a truthy [close]. *)
Definition line_due (props : list (string * json)) (day : Weekday) (o c : json) : Prop :=
  exists w,
    assoc (day_name day) props = Some w /\
    get (Some w) "open" = Normal (Some o) /\ truthy (Some o) = true /\
    get (Some w) "close" = Normal (Some c) /\ truthy (Some c) = true.


(* ------------------------------------------------------------------ *)
(** ** Schedules of the shape the data source promises *)

(** A DayWindow holds strings under [open] and [close]; a UnitSchedule is an
    object whose weekday and [default] entries, where present, are
    DayWindows. *)
Definition string_or_absent (v : option json) : bool :=
  match v with
  | None => true
  | Some (JStr _) => true
  | Some _ => false
  end.

Definition window_typed (v : option json) : bool :=
  match v with
  | None => true
  | Some (JObj p) =>
      string_or_absent (assoc "open" p) && string_or_absent (assoc "close" p)
  | Some _ => false
  end.

Definition unit_typed (hours : json) : bool :=
  match hours with
  | JObj props =>
      forallb (fun k => window_typed (assoc k props)) ("default" :: map day_name days)
  | _ => false
  end.

Definition schedule_typed (entries : list (string * json)) : bool :=
  forallb (fun e => unit_typed (snd e)) entries.

(* ------------------------------------------------------------------ *)
(** ** Sample schedules *)

Definition window (o c : string) : json :=
  JObj [("open", JStr o); ("close", JStr c)].

(** The two scenarios of the specification's section 8. *)
Definition restaurant_hours : json :=
  JObj [("Monday", window "07:00" "22:00");
        ("default", window "08:00" "20:00")].

Definition restaurant_entries : list (string * json) :=
  [("restaurant", restaurant_hours)].

Definition restaurant_schedule : json := JObj restaurant_entries.

Definition car_wash_hours : json :=
  JObj [("Monday", window "09:00" "09:00")].

Definition car_wash_entries : list (string * json) :=
  [("car_wash", car_wash_hours)].

Definition car_wash_schedule : json := JObj car_wash_entries.

(** A unit known only through [default]. *)
Definition supermarket_hours : json :=
  JObj [("default", window "08:00" "20:00")].

Definition supermarket_entries : list (string * json) :=
  [("supermarket", supermarket_hours)].

(** A unit without any day data, and one whose close time is out of range. *)
Definition service_bay_entries : list (string * json) :=
  [("service_bay", JObj [("emergency", JStr "24/7 on-call")])].

Definition late_close_hours : json :=
  JObj [("Monday", window "07:00" "25:70")].

Definition late_close_entries : list (string * json) :=
  [("restaurant", late_close_hours)].

(** A schedule with an index-like key, a unit without data today and the
    key [__proto__]. *)
Definition mixed_entries : list (string * json) :=
  [("7", supermarket_hours); ("restaurant", restaurant_hours);
   ("car_wash", car_wash_hours); ("__proto__", supermarket_hours)].

(** A unit schedule whose keys are not in calendar order. *)
Definition scrambled_hours : json :=
  JObj [("Sunday", window "09:00" "17:00");
        ("emergency", JStr "24/7 on-call");
        ("Wednesday", JObj [("open", JStr "08:00")]);
        ("Monday", window "07:00" "22:00")].

(* ------------------------------------------------------------------ *)
(** ** The specification's reading of a schedule *)

Module Spec.

Definition decimal_digit (c : ascii) : option Z :=
  if is_decimal_digit c then Some (Z.of_nat (nat_of_ascii c) - 48) else None.

(** A TimeOfDay is written [HH:MM], 24-hour and zero-padded: two digits, a
    colon, two digits, the hour in [0,23] and the minute in [0,59]. *)
Definition time_of_day (s : string) : option (Z * Z) :=
  match s with
  | String a (String b (String x (String c (String d EmptyString)))) =>
      match decimal_digit a, decimal_digit b, decimal_digit c, decimal_digit d with
      | Some a', Some b', Some c', Some d' =>
          let h := 10 * a' + b' in
          let m := 10 * c' + d' in
          if (x =? ":")%char && (h <? 24) && (m <? 60) then Some (h, m) else None
      | _, _, _, _ => None
      end
  | _ => None
  end.

(** Its meaning: minutes since midnight, in [0, 1439]. *)
Definition minutes_since_midnight (s : string) : option Z :=
  match time_of_day s with
  | Some (h, m) => Some (60 * h + m)
  | None => None
  end.

(** The instant handed to [evaluate]: minutes since midnight of [now]. *)
Definition nowMinutes (now : Date) : Z :=
  60 * getHours now + getMinutes now.

(** Open iff [openMinutes <= nowMinutes < closeMinutes]. *)
Definition is_open (openMinutes nowMinutes closeMinutes : Z) : bool :=
  (openMinutes <=? nowMinutes) && (nowMinutes <? closeMinutes).

Definition status_at (openMinutes nowMinutes closeMinutes : Z) : Status :=
  if is_open openMinutes nowMinutes closeMinutes then Open else Closed.

End Spec.

(** [typeof v === 'string'] *)
Definition is_string (v : option json) : bool :=
  match v with
  | Some (JStr _) => true
  | _ => false
  end.

(* ------------------------------------------------------------------ *)
(** ** The hours cards on the page *)

(** [unitsConfig[unit]]: the four configured units carry a label (the icon
    plays no role here); a name inherited from Object.prototype gives a
    truthy object without a label; any other key gives [undefined]. *)
Definition unitsConfig (unit : string) : option (option string) :=
  if (unit =? "restaurant")%string then Some (Some "Restaurant")
  else if (unit =? "supermarket")%string then Some (Some "Supermarket")
  else if (unit =? "service_bay")%string then Some (Some "Service Bay")
  else if (unit =? "car_wash")%string then Some (Some "Car Wash")
  else if existsb (String.eqb unit) object_prototype_names then Some None
  else None.

(** One [.hours-card] element: the label of its config and the card built
    by [createHoursCard].  The values interpolated into a card are taken to
    be plain text, so that its only element with a [status-] class is its
    badge. *)
Record HoursCard : Type := mkHoursCard {
  label : option string;
  card : Card
}.

(** What [this.hoursContainer] shows. *)
Inductive content : Type :=
| Spinner                          (* showHoursLoading *)
| Alert                            (* showHoursEmpty *)
| Cards (cards : list HoursCard).

(** The fields of a ContactManager that the hours logic uses;
    [hoursContainer] is [None] when the page has no such element. *)
Record Manager : Type := mkManager {
  hoursData : json;
  currentStatus : status_map;
  hoursContainer : option content
}.

(** The constructor: [hoursData = null], [currentStatus = {}]. *)
Definition new_manager (hoursContainer : option content) : Manager :=
  mkManager JNull [] hoursContainer.

Definition set_container (m : Manager) (c : content) : Manager :=
  mkManager (hoursData m) (currentStatus m)
            (match hoursContainer m with Some _ => Some c | None => None end).

(** [showHoursLoading] and [showHoursEmpty]: nothing without a container. *)
Definition showHoursLoading (m : Manager) : Manager := set_container m Spinner.
Definition showHoursEmpty (m : Manager) : Manager := set_container m Alert.

(** The [forEach] of [renderOperatingHours]: a unit without config is
    passed over, a card is appended for each other unit; a throw of
    [createHoursCard] ends the loop with the cards appended so far. *)
Fixpoint forEach_render (entries : list (string * json)) (st : status_map)
    (cards : list HoursCard) : list HoursCard * outcome :=
  match entries with
  | [] => (cards, Returned)
  | (unit, hours) :: tl =>
      match unitsConfig unit with
      | None => forEach_render tl st cards
      | Some config =>
          match createHoursCard unit hours st with
          | TypeError => (cards, Threw)
          | Normal c => forEach_render tl st (cards ++ [mkHoursCard config c])%list
          end
      end
  end.

(** [renderOperatingHours]: [if (!this.hoursContainer || !this.hoursData)
    return;], then the container is emptied and filled. *)
Definition renderOperatingHours (m : Manager) : Manager * outcome :=
  match hoursContainer m with
  | None => (m, Returned)
  | Some _ =>
      if negb (truthy (Some (hoursData m))) then (m, Returned)
      else
        let '(cards, o) :=
          forEach_render (Object_entries (hoursData m)) (currentStatus m) [] in
        (set_container m (Cards cards), o)
  end.

(** The fixed list of [updateStatusDisplay]; an index past its end gives
    [undefined], which as a property key is the text [undefined]. *)
Definition units : list string :=
  ["restaurant"; "supermarket"; "service_bay"; "car_wash"].

Definition unit_at (index : nat) : string :=
  match nth_error units index with
  | Some u => u
  | None => "undefined"
  end.

Definition set_badge (c : HoursCard) (s : Status) : HoursCard :=
  mkHoursCard (label c) (mkCard s (lines (card c))).

(** The callback of [updateStatusDisplay] on the card at [index]: a truthy
    [this.currentStatus[units[index]]] rewrites the badge, the element that
    [querySelector] finds in a card whose listed values are plain text
    ([cards_are_plain] below). *)
Definition update_card (st : status_map) (index : nat) (c : HoursCard) : HoursCard :=
  match status_get st (unit_at index) with
  | Own s => set_badge c s
  | Inherited => set_badge c Closed
  | Undefined => c
  end.

Fixpoint update_cards (st : status_map) (index : nat) (cards : list HoursCard)
  : list HoursCard :=
  match cards with
  | [] => []
  | c :: tl => update_card st index c :: update_cards st (S index) tl
  end.

(** [updateStatusDisplay]: over the [.hours-card] elements of the
    container, in document order. *)
Definition updateStatusDisplay (m : Manager) : Manager :=
  match hoursContainer m with
  | Some (Cards cards) =>
      mkManager (hoursData m) (currentStatus m)
                (Some (Cards (update_cards (currentStatus m) 0 cards)))
  | _ => m
  end.

(** The whole method [checkCurrentStatus] on the manager: the pass over the
    status map, then [updateStatusDisplay] unless the pass threw or
    [hoursData] was falsy. *)
Definition checkCurrentStatus_method (now : Date) (m : Manager) : Manager * outcome :=
  if negb (truthy (Some (hoursData m))) then (m, Returned)
  else
    match checkCurrentStatus (hoursData m) now (currentStatus m) with
    | (st, Threw) => (mkManager (hoursData m) st (hoursContainer m), Threw)
    | (st, Returned) =>
        (updateStatusDisplay (mkManager (hoursData m) st (hoursContainer m)),
         Returned)
    end.

(** [fetchOperatingHours] given what [apiCall] produced: [None] when it
    rejected, the parsed response otherwise.  The boolean tells whether the
    hours were loaded; when not, the [catch] shows the alert and an error
    toast. *)
Definition fetchOperatingHours (response : option json) (m : Manager)
  : Manager * bool :=
  let m1 := showHoursLoading m in
  match response with
  | None => (showHoursEmpty m1, false)
  | Some r =>
      match get (Some r) "hours" with
      | Normal (Some hours) =>
          if truthy (Some hours) then
            let m2 := mkManager hours (currentStatus m1) (hoursContainer m1) in
            match renderOperatingHours m2 with
            | (m3, Returned) => (m3, true)
            | (m3, Threw) => (showHoursEmpty m3, false)
            end
          else (showHoursEmpty m1, false)
      | _ => (showHoursEmpty m1, false)
      end
  end.

(** [init]: [await this.fetchOperatingHours(); this.checkCurrentStatus();] *)
Definition init (response : option json) (now : Date) (m : Manager)
  : Manager * outcome :=
  checkCurrentStatus_method now (fst (fetchOperatingHours response m)).

(** The cards [renderOperatingHours] builds when no card throws. *)
Fixpoint cards_of (entries : list (string * json)) (st : status_map)
  : list HoursCard :=
  match entries with
  | [] => []
  | (unit, hours) :: tl =>
      match unitsConfig unit, createHoursCard unit hours st with
      | Some config, Normal c => mkHoursCard config c :: cards_of tl st
      | _, _ => cards_of tl st
      end
  end.

(** The units of a schedule that get a card. *)
Definition rendered_units (entries : list (string * json)) : list string :=
  filter (fun u => match unitsConfig u with Some _ => true | None => false end)
         (map fst entries).

(** Whether the callback of the status pass finds day data for a unit: the
    guard on [hours[dayOfWeek] || hours['default']]. *)
Definition has_day_data (hours : json) (now : Date) : bool :=
  match dayHours_of hours now with
  | Normal dayHours =>
      match window_guard dayHours with
      | Normal ok => ok
      | TypeError => false
      end
  | TypeError => false
  end.

(** The values a card interpolates - [open] and [close] of each line that
    is due, and a truthy [emergency] - all pass a test. *)
Definition listed_values (test : json -> bool) (props : list (string * json)) : Prop :=
  (forall d o c, line_due props d o c -> test o = true /\ test c = true) /\
  (forall e, assoc "emergency" props = Some e -> truthy (Some e) = true ->
             test e = true).

(** A check that computes: every [open], [close] and [emergency] present. *)
Definition value_passes (test : json -> bool) (v : option json) : bool :=
  match v with
  | Some x => test x
  | None => true
  end.

Definition window_passes (test : json -> bool) (w : option json) : bool :=
  match w with
  | Some (JObj p) =>
      value_passes test (assoc "open" p) && value_passes test (assoc "close" p)
  | _ => true
  end.

Definition card_values_pass (test : json -> bool) (props : list (string * json))
  : bool :=
  forallb (fun d => window_passes test (assoc (day_name d) props)) days
  && value_passes test (assoc "emergency" props).

(** Text without [<] is parsed by [innerHTML] as text: it creates no
    element.  A value is free of markup when its string conversion is. *)
Fixpoint no_tag_open (s : string) : bool :=
  match s with
  | EmptyString => true
  | String c tl => negb (c =? "<")%char && no_tag_open tl
  end.

Fixpoint markup_free (v : json) : bool :=
  match v with
  | JStr s => no_tag_open s
  | JArr items =>
      (fix all (l : list json) : bool :=
         match l with
         | [] => true
         | x :: tl => markup_free x && all tl
         end) items
  | JNull | JBool _ | JNum _ | JObj _ => true
  end.

(** Every unit that gets a card has a schedule that is not [null] and whose
    listed values have a string conversion: no card throws. *)
Definition cards_can_be_built (entries : list (string * json)) : Prop :=
  forall unit hours,
    In (unit, hours) entries -> unitsConfig unit <> None ->
    hours <> JNull /\
    (forall props, hours = JObj props -> listed_values convertible props).

(** The listed values of every unit that gets a card are free of markup, so
    that the [.hours-card] elements of the container are the cards appended
    and the first element of a card with a [status-] class is its badge. *)
Definition cards_are_plain (entries : list (string * json)) : Prop :=
  forall unit props,
    In (unit, JObj props) entries -> unitsConfig unit <> None ->
    listed_values markup_free props.

(* ------------------------------------------------------------------ *)
(** ** The inquiry form *)

(** The [input] listener of the phone field:
    [value.replace(/[^0-9]/g, '').slice(0, 9)]. *)
Fixpoint digits_only (s : string) : string :=
  match s with
  | EmptyString => EmptyString
  | String c tl =>
      if is_decimal_digit c then String c (digits_only tl) else digits_only tl
  end.

Fixpoint slice_to (n : nat) (s : string) : string :=
  match n, s with
  | S n', String c tl => String c (slice_to n' tl)
  | _, _ => EmptyString
  end.

Definition phone_input (value : string) : string :=
  slice_to 9 (digits_only value).

Fixpoint all_digits (s : string) : bool :=
  match s with
  | EmptyString => true
  | String c tl => is_decimal_digit c && all_digits tl
  end.

(** [String.prototype.trim], on ASCII text. *)
Fixpoint trim_end (s : string) : string :=
  match s with
  | EmptyString => EmptyString
  | String c tl =>
      match trim_end tl with
      | EmptyString => if is_whitespace c then EmptyString else String c EmptyString
      | r => String c r
      end
  end.

Definition trim (s : string) : string := trim_end (trim_start s).

Fixpoint all_whitespace (s : string) : bool :=
  match s with
  | EmptyString => true
  | String c tl => is_whitespace c && all_whitespace tl
  end.

(** A time string without a colon. *)
Fixpoint colon_free (s : string) : bool :=
  match s with
  | EmptyString => true
  | String c tl => negb (c =? ":")%char && colon_free tl
  end.

(** The number written by a non-empty string of at most nine decimal
    digits. *)
Definition digits_number (s : string) : option Z :=
  if all_digits s && negb (s =? "")%string && (String.length s <=? 9)%nat
  then match decimal_value 0 s with
       | Some n => Some (Z.of_N n)
       | None => None
       end
  else None.

(** Text of characters below 128, on which byte length and white space
    agree with the UTF-16 length and white space of the page. *)
Fixpoint is_ascii (s : string) : bool :=
  match s with
  | EmptyString => true
  | String c tl => (nat_of_ascii c <? 128)%nat && is_ascii tl
  end.

Definition field_is_ascii (field : option string) : bool :=
  match field with
  | Some v => is_ascii v
  | None => true
  end.

Module Inquiry.

(** What the page holds when the form is submitted; a field is [None] when
    its element is missing ([document.getElementById(...)?.value]). *)
Record Form : Type := mkForm {
  nameField : option string;
  emailField : option string;
  phoneField : option string;
  serviceField : option string;
  messageField : option string;
  privacyCheck : option bool
}.

(** [formData]. *)
Record Data : Type := mkData {
  name : string;
  email : string;
  phone : string;
  serviceType : string;
  message : string;
  timestamp : string;
  pageUrl : string
}.

(** [el?.value.trim() || ''] and [el?.value || '']. *)
Definition trimmed (field : option string) : string :=
  match field with
  | Some v => trim v
  | None => EmptyString
  end.

Definition value_or_empty (field : option string) : string :=
  match field with
  | Some v => v
  | None => EmptyString
  end.

Definition formData (f : Form) (timestamp pageUrl : string) : Data :=
  mkData (trimmed (nameField f)) (trimmed (emailField f)) (trimmed (phoneField f))
         (value_or_empty (serviceField f)) (trimmed (messageField f))
         timestamp pageUrl.

(** The error toasts of [validateInquiryForm], by the field they name. *)
Inductive Problem : Type :=
| BadName | BadEmail | BadPhone | NoService | BadMessage | NoPrivacy.

Inductive Toast : Type :=
| ValidationToast (p : Problem)
| ErrorToast
| SuccessToast.

Inductive ButtonText : Type :=
| OriginalText | SendingText | SendMessageText.

Record Button : Type := mkButton {
  disabled : bool;
  innerHTML : ButtonText
}.

(** What [apiCall] produced for the POST. *)
Inductive ApiResult : Type :=
| Rejected
| Resolved (response : json).

(** What one submission did. *)
Record Submission : Type := mkSubmission {
  toast : Toast;
  request : option Data;     (* the body handed to [apiCall], if it was called *)
  formReset : bool;
  button : Button
}.

Section Helpers.

(** [validateEmail], [validatePhone] and [getPhoneWithCountryCode] are
    defined outside these sources. *)
Variable validateEmail : string -> bool.
Variable validatePhone : string -> bool.
Variable getPhoneWithCountryCode : string -> string.

(** [validateInquiryForm]: [None] for [true], the toast shown for
    [false].  [String.length] is the [length] of the code on ASCII text. *)
Definition validateInquiryForm (data : Data) (privacy : option bool)
  : option Problem :=
  if ((name data =? "")%string || (String.length (name data) <? 2)%nat) then Some BadName
  else if negb (validateEmail (email data)) then Some BadEmail
  else if negb (validatePhone (phone data)) then Some BadPhone
  else if (serviceType data =? "")%string then Some NoService
  else if ((message data =? "")%string || (String.length (message data) <? 10)%nat)
       then Some BadMessage
  else match privacy with
       | Some true => None
       | _ => Some NoPrivacy
       end.

Definition with_phone (d : Data) (p : string) : Data :=
  mkData (name d) (email d) p (serviceType d) (message d) (timestamp d) (pageUrl d).

(** [handleFormSubmit], from a form whose submit button is enabled and
    shows its original text. *)
Definition handleFormSubmit (f : Form) (timestamp pageUrl : string)
    (result : ApiResult) : Submission :=
  let data := formData f timestamp pageUrl in
  match validateInquiryForm data (privacyCheck f) with
  | Some p => mkSubmission (ValidationToast p) None false (mkButton false OriginalText)
  | None =>
      let sent := with_phone data (getPhoneWithCountryCode (phone data)) in
      let failed :=
        mkSubmission ErrorToast (Some sent) false (mkButton false SendMessageText) in
      match result with
      | Rejected => failed
      | Resolved response =>
          match get (Some response) "success" with
          | Normal success =>
              if truthy success
              then mkSubmission SuccessToast (Some sent) true
                                (mkButton false OriginalText)
              else failed
          | TypeError => failed
          end
      end
  end.

End Helpers.

End Inquiry.

(** The text fields of the form hold ASCII text. *)
Definition form_is_ascii (f : Inquiry.Form) : bool :=
  field_is_ascii (Inquiry.nameField f) && field_is_ascii (Inquiry.emailField f)
  && field_is_ascii (Inquiry.phoneField f) && field_is_ascii (Inquiry.messageField f).

(* ------------------------------------------------------------------ *)
(** ** Parsing a well-formed time string *)

Lemma decimal_digit_char (c : ascii) (v : Z) :
  Spec.decimal_digit c = Some v ->
  0 <= v <= 9 /\ is_whitespace c = false /\ digit_value 10 c = Some v /\
  (c =? ":")%char = false /\ (c =? "-")%char = false /\ (c =? "+")%char = false /\
  (c =? "x")%char = false /\ (c =? "X")%char = false.
Proof.
  destruct c as [b0 b1 b2 b3 b4 b5 b6 b7].
  destruct b0, b1, b2, b3, b4, b5, b6, b7; cbv;
    intros H; try discriminate H;
    injection H as <-; repeat split; discriminate.
Qed.

Lemma parseInt_two_digits (a b : ascii) (va vb : Z) :
  Spec.decimal_digit a = Some va ->
  Spec.decimal_digit b = Some vb ->
  parseInt_string (String a (String b EmptyString)) = Num (10 * va + vb).
Proof.
  intros Ha Hb.
  destruct (decimal_digit_char a va Ha) as (_ & Hws & Hda & _ & Hm & Hp & _ & _).
  destruct (decimal_digit_char b vb Hb) as (_ & _ & Hdb & _ & _ & _ & Hx & HX).
  unfold parseInt_string, strip_sign, strip_hex_prefix.
  cbn [trim_start]. rewrite Hws, Hm, Hp, Hx, HX.
  rewrite andb_false_r. cbn [parse_digits]. rewrite Hda, Hdb.
  f_equal. lia.
Qed.

Lemma split_colon_time (a b c d : ascii) :
  (a =? ":")%char = false -> (b =? ":")%char = false ->
  (c =? ":")%char = false -> (d =? ":")%char = false ->
  split_colon (String a (String b (String ":" (String c (String d EmptyString)))))
  = [String a (String b EmptyString); String c (String d EmptyString)].
Proof.
  intros Ha Hb Hc Hd. cbn [split_colon].
  rewrite Ha, Hb, Hc, Hd. reflexivity.
Qed.

(** On a well-formed time [timeStringToNumber] returns the HHMM number. *)
Lemma timeStringToNumber_time_of_day (s : string) (h m : Z) :
  Spec.time_of_day s = Some (h, m) ->
  timeStringToNumber (Some (JStr s)) = Normal (Num (h * 100 + m)) /\
  0 <= h < 24 /\ 0 <= m < 60 /\ truthy (Some (JStr s)) = true.
Proof.
  unfold Spec.time_of_day.
  destruct s as [|a [|b [|x [|c [|d [|e tl]]]]]]; try discriminate.
  destruct (Spec.decimal_digit a) as [va|] eqn:Ha; try discriminate.
  destruct (Spec.decimal_digit b) as [vb|] eqn:Hb; try discriminate.
  destruct (Spec.decimal_digit c) as [vc|] eqn:Hc; try discriminate.
  destruct (Spec.decimal_digit d) as [vd|] eqn:Hd; try discriminate.
  destruct (x =? ":")%char eqn:Hx; try discriminate.
  destruct (10 * va + vb <? 24) eqn:Hh; try discriminate.
  destruct (10 * vc + vd <? 60) eqn:Hm; try discriminate.
  cbn [andb]. intros H.
  assert (h = 10 * va + vb /\ m = 10 * vc + vd) as [-> ->]
    by (split; congruence).
  apply Ascii.eqb_eq in Hx. subst x.
  apply Z.ltb_lt in Hh. apply Z.ltb_lt in Hm.
  pose proof (decimal_digit_char a va Ha) as (Ra & _ & _ & Ca & _).
  pose proof (decimal_digit_char b vb Hb) as (Rb & _ & _ & Cb & _).
  pose proof (decimal_digit_char c vc Hc) as (Rc & _ & _ & Cc & _).
  pose proof (decimal_digit_char d vd Hd) as (Rd & _ & _ & Cd & _).
  split; [| split; [lia | split; [lia | reflexivity]]].
  unfold timeStringToNumber. cbn [truthy String.eqb negb].
  rewrite (split_colon_time a b c d Ca Cb Cc Cd).
  cbn [nth_error parseInt].
  rewrite (parseInt_two_digits a b va vb Ha Hb).
  rewrite (parseInt_two_digits c d vc vd Hc Hd).
  reflexivity.
Qed.

(** The HHMM encoding orders times of day as minutes since midnight do. *)
Lemma hhmm_le_iff (h1 m1 h2 m2 : Z) :
  0 <= m1 < 60 -> 0 <= m2 < 60 ->
  (h1 * 100 + m1 <= h2 * 100 + m2 <-> 60 * h1 + m1 <= 60 * h2 + m2).
Proof. lia. Qed.

Lemma hhmm_lt_iff (h1 m1 h2 m2 : Z) :
  0 <= m1 < 60 -> 0 <= m2 < 60 ->
  (h1 * 100 + m1 < h2 * 100 + m2 <-> 60 * h1 + m1 < 60 * h2 + m2).
Proof. lia. Qed.

Lemma isOpen_is_open (now : Date) (h1 m1 h2 m2 : Z) :
  valid_date now ->
  0 <= m1 < 60 -> 0 <= m2 < 60 ->
  isOpen now (Num (h1 * 100 + m1)) (Num (h2 * 100 + m2))
  = Spec.is_open (60 * h1 + m1) (Spec.nowMinutes now) (60 * h2 + m2).
Proof.
  intros [_ Hn] H1 H2.
  unfold isOpen, Spec.is_open, Spec.nowMinutes, currentTime, num_ge, num_lt.
  f_equal.
  - apply eq_true_iff_eq. rewrite !Z.leb_le. apply hhmm_le_iff; assumption.
  - apply eq_true_iff_eq. rewrite !Z.ltb_lt. apply hhmm_lt_iff; assumption.
Qed.

(* ------------------------------------------------------------------ *)
(** ** The status map under assignment *)

Section StatusMap.

Context {A : Type}.
Implicit Types (k : string) (v : A) (l : list (string * A)).

Lemma has_key_assoc k l : has_key k l = true <-> assoc k l <> None.
Proof.
  induction l as [|[k' v'] tl IH]; cbn.
  - split; [discriminate | congruence].
  - destruct (k =? k')%string; cbn; [split; [discriminate | reflexivity] | exact IH].
Qed.

Lemma has_key_In k l : has_key k l = true <-> In k (map fst l).
Proof.
  induction l as [|[k' v'] tl IH]; cbn.
  - split; [discriminate | tauto].
  - rewrite orb_true_iff, IH, String.eqb_eq. intuition congruence.
Qed.

Lemma assoc_not_In k l : ~ In k (map fst l) -> assoc k l = None.
Proof.
  intros H. destruct (assoc k l) eqn:E; [|reflexivity].
  exfalso. apply H, has_key_In, has_key_assoc. congruence.
Qed.

Lemma assoc_replace_value k k' v l :
  assoc k (replace_value k' v l)
  = if (k =? k')%string && has_key k' l then Some v else assoc k l.
Proof.
  induction l as [|[k2 v2] tl IH]; cbn.
  - now rewrite andb_false_r.
  - destruct (k' =? k2)%string eqn:E2; cbn.
    + apply String.eqb_eq in E2. subst k2.
      rewrite andb_true_r. now destruct (k =? k')%string.
    + destruct (k =? k2)%string eqn:E.
      * apply String.eqb_eq in E. subst k2.
        rewrite String.eqb_sym in E2. now rewrite E2.
      * exact IH.
Qed.

Lemma assoc_insert_new k k' v l :
  has_key k' l = false ->
  assoc k (insert_new k' v l) = if (k =? k')%string then Some v else assoc k l.
Proof.
  induction l as [|[k2 v2] tl IH]; cbn; [reflexivity|].
  intros H. apply orb_false_iff in H as [E2 H].
  destruct (enumerated_before k' k2); cbn.
  - reflexivity.
  - destruct (k =? k2)%string eqn:E.
    + apply String.eqb_eq in E. subst k2.
      rewrite String.eqb_sym in E2. now rewrite E2.
    + now apply IH.
Qed.

Lemma replace_value_same k v l : assoc k l = Some v -> replace_value k v l = l.
Proof.
  induction l as [|[k2 v2] tl IH]; cbn; [reflexivity|].
  destruct (k =? k2)%string.
  - intros H. injection H as ->. reflexivity.
  - intros H. f_equal. now apply IH.
Qed.

End StatusMap.

Lemma assoc_status_set (k unit : string) (s : Status) (m : status_map) :
  assoc k (status_set unit s m)
  = if (k =? unit)%string && negb (unit =? "__proto__")%string
    then Some s else assoc k m.
Proof.
  unfold status_set.
  destruct (unit =? "__proto__")%string; cbn.
  - now rewrite andb_false_r.
  - rewrite andb_true_r. destruct (has_key unit m) eqn:H.
    + rewrite assoc_replace_value, H. now rewrite andb_true_r.
    + now apply assoc_insert_new.
Qed.

Lemma status_set_same (unit : string) (s : Status) (m : status_map) :
  assoc unit m = Some s -> status_set unit s m = m.
Proof.
  intros H. unfold status_set.
  destruct (unit =? "__proto__")%string; [reflexivity|].
  replace (has_key unit m) with true
    by (symmetry; apply has_key_assoc; congruence).
  now apply replace_value_same.
Qed.

(* ------------------------------------------------------------------ *)
(** ** One pass over the entries *)

Section Pass.

Variable now : Date.

Lemma forEach_status_assoc (entries : list (string * json)) :
  forall (st : status_map) (k : string),
    assoc k (fst (forEach_status entries now st))
    = match assigned_to k entries now with
      | Some s => Some s
      | None => assoc k st
      end.
Proof.
  induction entries as [|[unit hours] tl IH]; intros st k; cbn; [reflexivity|].
  destruct (unit_status hours now) as [[s|]|]; cbn.
  - rewrite IH. destruct (assigned_to k tl now); [reflexivity|].
    rewrite assoc_status_set.
    now destruct ((k =? unit)%string && negb (unit =? "__proto__")%string).
  - apply IH.
  - reflexivity.
Qed.

Lemma forEach_status_outcome (entries : list (string * json)) :
  forall st st' : status_map,
    snd (forEach_status entries now st) = snd (forEach_status entries now st').
Proof.
  induction entries as [|[unit hours] tl IH]; intros st st'; cbn; [reflexivity|].
  destruct (unit_status hours now) as [[s|]|]; cbn; auto.
Qed.

Lemma forEach_status_returned (entries : list (string * json)) (st : status_map) :
  snd (forEach_status entries now st) = Returned <->
  Forall (fun e => unit_status (snd e) now <> TypeError) entries.
Proof.
  revert st. induction entries as [|[unit hours] tl IH]; intros st; cbn.
  - split; [constructor | reflexivity].
  - destruct (unit_status hours now) as [[s|]|] eqn:E; cbn.
    + rewrite IH. split.
      * intros H. constructor; [cbn; congruence | exact H].
      * now inversion 1.
    + rewrite IH. split.
      * intros H. constructor; [cbn; congruence | exact H].
      * now inversion 1.
    + split; [discriminate|].
      inversion 1 as [|? ? Hd]. cbn in Hd. congruence.
Qed.

Lemma assigned_to_not_In (k : string) (entries : list (string * json)) :
  ~ In k (map fst entries) -> assigned_to k entries now = None.
Proof.
  induction entries as [|[unit hours] tl IH]; cbn; [reflexivity|].
  intros H.
  assert (Hk : (k =? unit)%string = false)
    by (apply String.eqb_neq; intros ->; tauto).
  rewrite IH by tauto. rewrite Hk.
  now destruct (unit_status hours now) as [[s|]|].
Qed.

(** What a pass that returns assigns to a unit with unique key. *)
Lemma assigned_to_In (unit : string) (hours : json) (s : Status)
    (entries : list (string * json)) :
  NoDup (map fst entries) ->
  In (unit, hours) entries ->
  Forall (fun e => unit_status (snd e) now <> TypeError) entries ->
  unit <> "__proto__" ->
  unit_status hours now = Normal (Some s) ->
  assigned_to unit entries now = Some s.
Proof.
  intros Hnd Hin Hall Hp Hs.
  induction entries as [|[u h] tl IH]; [contradiction|].
  cbn in Hnd. inversion Hnd as [|? ? Hni Hnd']. subst.
  inversion Hall as [|? ? Hh Hall']. subst. cbn in Hh.
  destruct Hin as [E|Hin].
  - injection E as -> ->. cbn. rewrite Hs.
    rewrite (assigned_to_not_In _ _ Hni), String.eqb_refl.
    apply String.eqb_neq in Hp. now rewrite Hp.
  - cbn. rewrite (IH Hnd' Hin Hall').
    now destruct (unit_status h now) as [[s'|]|].
Qed.

(** A unit whose callback assigns nothing is not assigned by the pass. *)
Lemma assigned_to_skipped (unit : string) (hours : json)
    (entries : list (string * json)) :
  NoDup (map fst entries) ->
  In (unit, hours) entries ->
  (forall s, unit_status hours now <> Normal (Some s)) ->
  assigned_to unit entries now = None.
Proof.
  intros Hnd Hin Hs.
  induction entries as [|[u h] tl IH]; [contradiction|].
  cbn in Hnd. inversion Hnd as [|? ? Hni Hnd']. subst.
  destruct Hin as [E|Hin].
  - injection E as -> ->. cbn.
    rewrite (assigned_to_not_In _ _ Hni).
    destruct (unit_status hours now) as [[s'|]|]; try reflexivity.
    now elim (Hs s').
  - cbn. rewrite (IH Hnd' Hin).
    assert (Hk : (unit =? u)%string = false).
    { apply String.eqb_neq. intros ->. apply Hni.
      change u with (fst (u, hours)). now apply in_map. }
    rewrite Hk. now destruct (unit_status h now) as [[s'|]|].
Qed.

(** Removing a unit whose callback assigns nothing changes nothing. *)
Lemma forEach_status_skip (l1 l2 : list (string * json)) (unit : string)
    (hours : json) (st : status_map) :
  unit_status hours now = Normal None ->
  forEach_status (l1 ++ (unit, hours) :: l2) now st
  = forEach_status (l1 ++ l2) now st.
Proof.
  intros Hs. revert st.
  induction l1 as [|[u h] tl IH]; intros st; cbn.
  - now rewrite Hs.
  - destruct (unit_status h now) as [[s'|]|]; auto.
Qed.

(** A unit whose callback does not throw leaves the outcome of the pass
    and what the other units are assigned as they are without it. *)
Lemma assigned_to_without (l1 l2 : list (string * json)) (unit : string)
    (hours : json) (k : string) :
  unit_status hours now <> TypeError ->
  k <> unit ->
  assigned_to k (l1 ++ (unit, hours) :: l2) now = assigned_to k (l1 ++ l2) now.
Proof.
  intros Hs Hk. induction l1 as [|[u h] tl IH]; cbn.
  - apply String.eqb_neq in Hk. rewrite Hk. cbn.
    destruct (unit_status hours now) as [[s'|]|]; try reflexivity.
    + now destruct (assigned_to k l2 now).
    + congruence.
  - rewrite IH. reflexivity.
Qed.

Lemma outcome_without (l1 l2 : list (string * json)) (unit : string)
    (hours : json) (st : status_map) :
  unit_status hours now <> TypeError ->
  snd (forEach_status (l1 ++ (unit, hours) :: l2) now st)
  = snd (forEach_status (l1 ++ l2) now st).
Proof.
  intros Hs. revert st. induction l1 as [|[u h] tl IH]; intros st; cbn.
  - destruct (unit_status hours now) as [[s'|]|]; try reflexivity.
    + apply forEach_status_outcome.
    + congruence.
  - destruct (unit_status h now) as [[s'|]|]; auto.
Qed.

(** A second pass over a status map that already holds what the pass
    assigns changes nothing. *)
Lemma forEach_status_fixed (entries : list (string * json)) :
  NoDup (map fst entries) ->
  forall m : status_map,
    (forall k s, assigned_to k entries now = Some s -> assoc k m = Some s) ->
    fst (forEach_status entries now m) = m.
Proof.
  induction entries as [|[u h] tl IH]; intros Hnd m Hm; cbn; [reflexivity|].
  cbn in Hnd. inversion Hnd as [|? ? Hni Hnd']. subst.
  cbn in Hm.
  destruct (unit_status h now) as [[s|]|] eqn:E; cbn.
  - assert (Hset : status_set u s m = m).
    { destruct (u =? "__proto__")%string eqn:Hp.
      - unfold status_set. now rewrite Hp.
      - apply status_set_same, Hm.
        rewrite (assigned_to_not_In _ _ Hni), String.eqb_refl. reflexivity. }
    rewrite Hset. apply IH; [exact Hnd'|].
    intros k s' Hk. apply Hm. now rewrite Hk.
  - apply IH; [exact Hnd'|]. exact Hm.
  - reflexivity.
Qed.

End Pass.

(* ------------------------------------------------------------------ *)
(** ** The callback on resolved day data *)

Lemma window_guard_total (dayHours : option json) :
  exists ok, window_guard dayHours = Normal ok.
Proof.
  unfold window_guard.
  destruct dayHours as [[| b | n | s | items | props]|]; cbn; eauto.
  - destruct b; cbn; eauto.
  - destruct (negb (n =? 0)); cbn; eauto.
  - destruct (negb (s =? "")%string); cbn; eauto.
  - destruct (truthy (assoc "open" props)); eauto.
Qed.

Lemma get_Some_inv (v w : json) (k : string) :
  get (Some v) k = Normal (Some w) ->
  exists props, v = JObj props /\ assoc k props = Some w.
Proof.
  destruct v; cbn; try discriminate.
  intros H. injection H as H. eauto.
Qed.

(** The status assigned from a window with two non-empty strings. *)
Lemma window_status_strings (w : json) (o c : string) (now : Date) :
  get (Some w) "open" = Normal (Some (JStr o)) ->
  get (Some w) "close" = Normal (Some (JStr c)) ->
  o <> EmptyString -> c <> EmptyString ->
  exists openTime closeTime,
    timeStringToNumber (Some (JStr o)) = Normal openTime /\
    timeStringToNumber (Some (JStr c)) = Normal closeTime /\
    window_status (Some w) now
    = Normal (Some (if isOpen now openTime closeTime then Open else Closed)).
Proof.
  intros Ho Hc Hno Hnc.
  destruct (get_Some_inv _ _ _ Ho) as (props & -> & _).
  assert (To : truthy (Some (JStr o)) = true)
    by (cbn; apply negb_true_iff, String.eqb_neq; exact Hno).
  assert (Tc : truthy (Some (JStr c)) = true)
    by (cbn; apply negb_true_iff, String.eqb_neq; exact Hnc).
  assert (exists t, timeStringToNumber (Some (JStr o)) = Normal t) as [openTime T1]
    by (unfold timeStringToNumber; rewrite To; cbn [negb]; eauto).
  assert (exists t, timeStringToNumber (Some (JStr c)) = Normal t) as [closeTime T2]
    by (unfold timeStringToNumber; rewrite Tc; cbn [negb]; eauto).
  exists openTime, closeTime.
  split; [exact T1|]. split; [exact T2|].
  unfold window_status, window_guard.
  cbn [truthy bind]. rewrite Ho. cbn [bind]. rewrite To, Hc. cbn [bind].
  rewrite Tc, T1. cbn [bind]. rewrite T2. reflexivity.
Qed.

(** The status assigned from a window with two well-formed times is the
    specification's half-open interval test on minutes since midnight. *)
Lemma window_status_times (w : json) (o c : string) (om cm : Z) (now : Date) :
  valid_date now ->
  get (Some w) "open" = Normal (Some (JStr o)) ->
  get (Some w) "close" = Normal (Some (JStr c)) ->
  Spec.minutes_since_midnight o = Some om ->
  Spec.minutes_since_midnight c = Some cm ->
  window_status (Some w) now
  = Normal (Some (Spec.status_at om (Spec.nowMinutes now) cm)).
Proof.
  intros Hv Ho Hc Hom Hcm.
  unfold Spec.minutes_since_midnight in Hom, Hcm.
  destruct (Spec.time_of_day o) as [[h1 m1]|] eqn:E1; [|discriminate].
  destruct (Spec.time_of_day c) as [[h2 m2]|] eqn:E2; [|discriminate].
  injection Hom as <-. injection Hcm as <-.
  destruct (timeStringToNumber_time_of_day o h1 m1 E1) as (T1 & _ & R1 & N1).
  destruct (timeStringToNumber_time_of_day c h2 m2 E2) as (T2 & _ & R2 & N2).
  assert (Hno : o <> EmptyString) by (intros ->; discriminate N1).
  assert (Hnc : c <> EmptyString) by (intros ->; discriminate N2).
  destruct (window_status_strings w o c now Ho Hc Hno Hnc)
    as (openTime & closeTime & T1' & T2' & ->).
  rewrite T1 in T1'. rewrite T2 in T2'.
  injection T1' as <-. injection T2' as <-.
  rewrite (isOpen_is_open now h1 m1 h2 m2 Hv R1 R2). reflexivity.
Qed.

(* ------------------------------------------------------------------ *)
(** ** The whole method *)

Lemma checkCurrentStatus_object (entries : list (string * json)) (now : Date)
    (st : status_map) :
  checkCurrentStatus (JObj entries) now st = forEach_status entries now st.
Proof. reflexivity. Qed.

Lemma status_get_assoc (m m' : status_map) (unit : string) :
  assoc unit m = assoc unit m' -> status_get m unit = status_get m' unit.
Proof. unfold status_get. now intros ->. Qed.

(** A pass that returns leaves at a unit with data the status its callback
    computes. *)
Lemma checkCurrentStatus_assigns (entries : list (string * json)) (now : Date)
    (st : status_map) (unit : string) (hours : json) (s : Status) :
  NoDup (map fst entries) ->
  In (unit, hours) entries ->
  unit <> "__proto__" ->
  snd (checkCurrentStatus (JObj entries) now st) = Returned ->
  unit_status hours now = Normal (Some s) ->
  status_get (fst (checkCurrentStatus (JObj entries) now st)) unit = Own s.
Proof.
  intros Hnd Hin Hp Hret Hs.
  rewrite checkCurrentStatus_object in *.
  apply forEach_status_returned in Hret.
  unfold status_get. rewrite forEach_status_assoc.
  now rewrite (assigned_to_In now unit hours s entries Hnd Hin Hret Hp Hs).
Qed.

(** A unit whose callback assigns nothing keeps the entry it had. *)
Lemma checkCurrentStatus_keeps (entries : list (string * json)) (now : Date)
    (st : status_map) (unit : string) (hours : json) :
  NoDup (map fst entries) ->
  In (unit, hours) entries ->
  (forall s, unit_status hours now <> Normal (Some s)) ->
  assoc unit (fst (checkCurrentStatus (JObj entries) now st)) = assoc unit st.
Proof.
  intros Hnd Hin Hs.
  rewrite checkCurrentStatus_object, forEach_status_assoc.
  now rewrite (assigned_to_skipped now unit hours entries Hnd Hin Hs).
Qed.

Lemma unit_status_resolved (hours : json) (now : Date) (dayHours : option json) :
  dayHours_of hours now = Normal dayHours ->
  unit_status hours now = window_status dayHours now.
Proof. unfold unit_status. now intros ->. Qed.

Lemma window_status_guard (dayHours : option json) (now : Date) (s : Status) :
  window_status dayHours now = Normal (Some s) ->
  window_guard dayHours = Normal true.
Proof.
  unfold window_status.
  destruct (window_guard dayHours) as [[|]|]; cbn; try discriminate.
  reflexivity.
Qed.

Lemma assigned_to_source (now : Date) (k : string) (s : Status)
    (entries : list (string * json)) :
  assigned_to k entries now = Some s ->
  exists hours s', In (k, hours) entries /\ unit_status hours now = Normal (Some s').
Proof.
  induction entries as [|[u h] tl IH]; cbn; [discriminate|].
  destruct (unit_status h now) as [[s'|]|] eqn:E; try discriminate.
  - destruct (assigned_to k tl now) as [s2|].
    + intros H. destruct (IH H) as (hours & s3 & Hin & Hs).
      exists hours, s3. split; [right|]; assumption.
    + destruct (k =? u)%string eqn:Ek; cbn; [|discriminate].
      apply String.eqb_eq in Ek. subst u. intros _.
      exists h, s'. split; [left; reflexivity | exact E].
  - intros H. destruct (IH H) as (hours & s3 & Hin & Hs).
    exists hours, s3. split; [right|]; assumption.
Qed.


Lemma all_days (d : Weekday) : In d days.
Proof. destruct d; cbn; tauto. Qed.

(** On a schedule of the promised shape no callback throws: the pass
    returns. *)
Lemma window_typed_no_throw (dayHours : option json) (now : Date) :
  window_typed dayHours = true -> window_status dayHours now <> TypeError.
Proof.
  destruct dayHours as [[| b | n | s | items | p]|]; cbn; try discriminate.
  intros H. apply andb_true_iff in H as [Ho Hc].
  unfold window_status, window_guard. cbn [truthy get bind].
  destruct (assoc "open" p) as [[| | | o | |]|]; try discriminate Ho;
    [|cbn; discriminate].
  destruct (truthy (Some (JStr o))) eqn:To; [|cbn; discriminate].
  cbn [bind].
  destruct (assoc "close" p) as [[| | | c | |]|]; try discriminate Hc;
    [|cbn; discriminate].
  destruct (truthy (Some (JStr c))) eqn:Tc; [|cbn; discriminate].
  cbn [bind]. unfold timeStringToNumber. rewrite To, Tc. cbn. discriminate.
Qed.

Lemma unit_typed_no_throw (hours : json) (now : Date) :
  unit_typed hours = true -> unit_status hours now <> TypeError.
Proof.
  destruct hours as [| | | | | props]; cbn [unit_typed]; try discriminate.
  intros H. rewrite forallb_forall in H.
  unfold unit_status, dayHours_of. cbn [get bind].
  destruct (truthy (assoc (day_name (weekday now)) props)); cbn [bind].
  - apply window_typed_no_throw, H. right. apply in_map, all_days.
  - apply window_typed_no_throw, H. now left.
Qed.

Lemma schedule_typed_returns (entries : list (string * json)) (now : Date)
    (st : status_map) :
  schedule_typed entries = true ->
  snd (checkCurrentStatus (JObj entries) now st) = Returned.
Proof.
  intros H. rewrite checkCurrentStatus_object.
  apply forEach_status_returned, Forall_forall.
  intros [u h] Hin. unfold schedule_typed in H. rewrite forallb_forall in H.
  apply unit_typed_no_throw, (H _ Hin).
Qed.

(* ------------------------------------------------------------------ *)
(** ** Properties stated by the specification *)

(** C1.  A unit whose resolved window for today has two well-formed times
    with open < close is reported Open exactly when
    openMinutes <= nowMinutes < closeMinutes: Open at the open minute, Closed
    at the close minute, Open one minute before close.  The unit is any own
    key the status map can store, and the pass is one that returns, as every
    pass over a schedule of the promised shape does
    ([schedule_typed_returns]). *)
Theorem C1_open_iff_within_window
    (entries : list (string * json)) (now : Date) (st : status_map)
    (unit : string) (hours w : json) (o c : string) (om cm : Z) :
  valid_date now ->
  NoDup (map fst entries) ->
  In (unit, hours) entries ->
  unit <> "__proto__" ->
  snd (checkCurrentStatus (JObj entries) now st) = Returned ->
  dayHours_of hours now = Normal (Some w) ->
  get (Some w) "open" = Normal (Some (JStr o)) ->
  get (Some w) "close" = Normal (Some (JStr c)) ->
  Spec.minutes_since_midnight o = Some om ->
  Spec.minutes_since_midnight c = Some cm ->
  om < cm ->
  let result := fst (checkCurrentStatus (JObj entries) now st) in
  (status_get result unit = Own Open <-> om <= Spec.nowMinutes now < cm) /\
  (status_get result unit = Own Closed <-> ~ (om <= Spec.nowMinutes now < cm)) /\
  (Spec.nowMinutes now = om -> status_get result unit = Own Open) /\
  (Spec.nowMinutes now = cm -> status_get result unit = Own Closed) /\
  (Spec.nowMinutes now = cm - 1 -> status_get result unit = Own Open).
Proof.
  intros Hv Hnd Hin Hp Hret Hd Ho Hc Hom Hcm Hlt result.
  assert (Hs : status_get result unit
               = Own (Spec.status_at om (Spec.nowMinutes now) cm)).
  { apply (checkCurrentStatus_assigns entries now st unit hours); try assumption.
    rewrite (unit_status_resolved _ _ _ Hd).
    now apply window_status_times with (o := o) (c := c). }
  rewrite Hs. unfold Spec.status_at, Spec.is_open.
  destruct (om <=? Spec.nowMinutes now) eqn:E1;
    destruct (Spec.nowMinutes now <? cm) eqn:E2; cbn;
    try apply Z.leb_le in E1; try apply Z.leb_gt in E1;
    try apply Z.ltb_lt in E2; try apply Z.ltb_ge in E2;
    repeat split; intros; try reflexivity; try discriminate; try lia.
Qed.

Lemma C1_open_iff_within_window_witness :
  status_get (fst (checkCurrentStatus restaurant_schedule (mkDate Monday 7 0) []))
    "restaurant" = Own Open
  <-> 420 <= Spec.nowMinutes (mkDate Monday 7 0) < 1320.
Proof.
  refine (proj1 (C1_open_iff_within_window restaurant_entries (mkDate Monday 7 0) []
            "restaurant" restaurant_hours (window "07:00" "22:00")
            "07:00" "22:00" 420 1320 _ _ _ _ _ _ _ _ _ _ _)).
  - unfold valid_date; cbn; lia.
  - repeat constructor; cbn; tauto.
  - left; reflexivity.
  - discriminate.
  - reflexivity.
  - reflexivity.
  - reflexivity.
  - reflexivity.
  - reflexivity.
  - reflexivity.
  - lia.
Defined.

(** C4.  A unit whose resolved window for today has two well-formed times
    with openMinutes >= closeMinutes, the zero-length window included, is
    reported Closed whatever the time of day. *)
Theorem C4_inverted_window_closed
    (entries : list (string * json)) (now : Date) (st : status_map)
    (unit : string) (hours w : json) (o c : string) (om cm : Z) :
  valid_date now ->
  NoDup (map fst entries) ->
  In (unit, hours) entries ->
  unit <> "__proto__" ->
  snd (checkCurrentStatus (JObj entries) now st) = Returned ->
  dayHours_of hours now = Normal (Some w) ->
  get (Some w) "open" = Normal (Some (JStr o)) ->
  get (Some w) "close" = Normal (Some (JStr c)) ->
  Spec.minutes_since_midnight o = Some om ->
  Spec.minutes_since_midnight c = Some cm ->
  om >= cm ->
  status_get (fst (checkCurrentStatus (JObj entries) now st)) unit = Own Closed.
Proof.
  intros Hv Hnd Hin Hp Hret Hd Ho Hc Hom Hcm Hge.
  rewrite (checkCurrentStatus_assigns entries now st unit hours
             (Spec.status_at om (Spec.nowMinutes now) cm)); try assumption.
  - unfold Spec.status_at, Spec.is_open.
    destruct (om <=? Spec.nowMinutes now) eqn:E1;
      destruct (Spec.nowMinutes now <? cm) eqn:E2; cbn; try reflexivity.
    apply Z.leb_le in E1. apply Z.ltb_lt in E2. lia.
  - rewrite (unit_status_resolved _ _ _ Hd).
    now apply window_status_times with (o := o) (c := c).
Qed.

Lemma C4_inverted_window_closed_witness :
  status_get (fst (checkCurrentStatus car_wash_schedule (mkDate Monday 9 0) []))
    "car_wash" = Own Closed.
Proof.
  refine (C4_inverted_window_closed car_wash_entries (mkDate Monday 9 0) []
            "car_wash" car_wash_hours (window "09:00" "09:00")
            "09:00" "09:00" 540 540 _ _ _ _ _ _ _ _ _ _ _).
  - unfold valid_date; cbn; lia.
  - repeat constructor; cbn; tauto.
  - left; reflexivity.
  - discriminate.
  - reflexivity.
  - reflexivity.
  - reflexivity.
  - reflexivity.
  - reflexivity.
  - reflexivity.
  - lia.
Defined.

(** C9.  On well-formed zero-padded times the HHMM numbers of
    [timeStringToNumber] are ordered as the minutes since midnight are, so
    the comparison [currentTime >= openTime && currentTime < closeTime]
    gives the result of the half-open interval test on minutes. *)
Theorem C9_hhmm_refines_minutes (a b : string) (ma mb : Z) :
  Spec.minutes_since_midnight a = Some ma ->
  Spec.minutes_since_midnight b = Some mb ->
  exists x y,
    timeStringToNumber (Some (JStr a)) = Normal (Num x) /\
    timeStringToNumber (Some (JStr b)) = Normal (Num y) /\
    (x <= y <-> ma <= mb) /\
    (forall now, valid_date now ->
       isOpen now (Num x) (Num y) = Spec.is_open ma (Spec.nowMinutes now) mb).
Proof.
  unfold Spec.minutes_since_midnight. intros Ha Hb.
  destruct (Spec.time_of_day a) as [[h1 m1]|] eqn:E1; [|discriminate].
  destruct (Spec.time_of_day b) as [[h2 m2]|] eqn:E2; [|discriminate].
  injection Ha as <-. injection Hb as <-.
  destruct (timeStringToNumber_time_of_day a h1 m1 E1) as (T1 & _ & R1 & _).
  destruct (timeStringToNumber_time_of_day b h2 m2 E2) as (T2 & _ & R2 & _).
  exists (h1 * 100 + m1), (h2 * 100 + m2).
  split; [exact T1|]. split; [exact T2|]. split.
  - now apply hhmm_le_iff.
  - intros now Hv. now apply isOpen_is_open.
Qed.

Lemma C9_hhmm_refines_minutes_witness :
  exists x y,
    timeStringToNumber (Some (JStr "07:05")) = Normal (Num x) /\
    timeStringToNumber (Some (JStr "22:30")) = Normal (Num y) /\
    (x <= y <-> 425 <= 1350) /\
    (forall now, valid_date now ->
       isOpen now (Num x) (Num y) = Spec.is_open 425 (Spec.nowMinutes now) 1350).
Proof.
  apply (C9_hhmm_refines_minutes "07:05" "22:30" 425 1350); reflexivity.
Defined.

(** C10.  A pass leaves the status entry of a unit untouched when the unit's
    day data (after the fallback to [default]) is missing or lacks a truthy
    [open] or [close]; an entry that a pass changes belongs to a unit whose
    day data passes that guard. *)
Theorem C10_entry_kept_without_day_data
    (entries : list (string * json)) (now : Date) (st : status_map)
    (unit : string) (hours : json) (dayHours : option json) :
  NoDup (map fst entries) ->
  In (unit, hours) entries ->
  dayHours_of hours now = Normal dayHours ->
  window_guard dayHours = Normal false ->
  let result := fst (checkCurrentStatus (JObj entries) now st) in
  status_get result unit = status_get st unit /\
  (forall k, status_get result k <> status_get st k ->
     exists hours' dayHours',
       In (k, hours') entries /\
       dayHours_of hours' now = Normal dayHours' /\
       window_guard dayHours' = Normal true).
Proof.
  intros Hnd Hin Hd Hg result. split.
  - apply status_get_assoc.
    apply (checkCurrentStatus_keeps entries now st unit hours Hnd Hin).
    intros s. rewrite (unit_status_resolved _ _ _ Hd).
    unfold window_status. rewrite Hg. discriminate.
  - intros k Hk. subst result.
    rewrite checkCurrentStatus_object in Hk.
    destruct (assigned_to k entries now) as [s|] eqn:E.
    + destruct (assigned_to_source now k s entries E) as (h' & s' & Hin' & Hs').
      unfold unit_status in Hs'.
      destruct (dayHours_of h' now) as [d'|] eqn:Ed; [|discriminate].
      exists h', d'. split; [exact Hin'|]. split; [exact Ed|].
      exact (window_status_guard d' now s' Hs').
    + exfalso. apply Hk, status_get_assoc.
      rewrite forEach_status_assoc, E. reflexivity.
Qed.

Lemma C10_entry_kept_without_day_data_witness :
  status_get
    (fst (checkCurrentStatus car_wash_schedule (mkDate Tuesday 9 30)
            [("car_wash", Open)])) "car_wash"
  = status_get [("car_wash", Open)] "car_wash".
Proof.
  refine (proj1 (C10_entry_kept_without_day_data car_wash_entries
                   (mkDate Tuesday 9 30) [("car_wash", Open)]
                   "car_wash" car_wash_hours None _ _ _ _)).
  - repeat constructor; cbn; tauto.
  - left; reflexivity.
  - reflexivity.
  - reflexivity.
Defined.

(** C2, as the code has it.  Without an entry for today's weekday the lookup
    falls back to [default]; with neither, the callback assigns nothing: the
    pass is the pass over the schedule without the unit, the unit keeps the
    entry it had, and a unit that has none is displayed Open by
    [createHoursCard]. *)
Theorem C2_fallback_then_no_assignment
    (l1 l2 : list (string * json)) (unit : string)
    (props : list (string * json)) (now : Date) (st : status_map) :
  assoc (day_name (weekday now)) props = None ->
  dayHours_of (JObj props) now = Normal (assoc "default" props) /\
  (assoc "default" props = None ->
     let result :=
       fst (checkCurrentStatus (JObj (l1 ++ (unit, JObj props) :: l2)) now st) in
     unit_status (JObj props) now = Normal None /\
     checkCurrentStatus (JObj (l1 ++ (unit, JObj props) :: l2)) now st
     = checkCurrentStatus (JObj (l1 ++ l2)) now st /\
     (~ In unit (map fst (l1 ++ l2)) ->
        status_get result unit = status_get st unit /\
        (status_get st unit = Undefined -> card_status unit result = Open))).
Proof.
  intros Hday.
  assert (Hd : dayHours_of (JObj props) now = Normal (assoc "default" props))
    by (unfold dayHours_of; cbn [get bind]; now rewrite Hday).
  split; [exact Hd|]. intros Hdef result.
  assert (Hs : unit_status (JObj props) now = Normal None)
    by (rewrite (unit_status_resolved _ _ _ Hd), Hdef; reflexivity).
  assert (Hrun : checkCurrentStatus (JObj (l1 ++ (unit, JObj props) :: l2)) now st
                 = checkCurrentStatus (JObj (l1 ++ l2)) now st)
    by (rewrite !checkCurrentStatus_object; now apply forEach_status_skip).
  split; [exact Hs|]. split; [exact Hrun|].
  intros Hni.
  assert (Hget : status_get result unit = status_get st unit).
  { apply status_get_assoc. subst result.
    rewrite Hrun, checkCurrentStatus_object, forEach_status_assoc.
    now rewrite (assigned_to_not_In now unit (l1 ++ l2) Hni). }
  split; [exact Hget|].
  intros Hu. unfold card_status. now rewrite Hget, Hu.
Qed.

Lemma C2_fallback_then_no_assignment_witness :
  dayHours_of supermarket_hours (mkDate Tuesday 7 30)
  = Normal (Some (window "08:00" "20:00")) /\
  unit_status (JObj [("emergency", JStr "24/7 on-call")]) (mkDate Tuesday 7 30)
  = Normal None.
Proof.
  split.
  - refine (proj1 (C2_fallback_then_no_assignment [] [] "supermarket"
                     [("default", window "08:00" "20:00")]
                     (mkDate Tuesday 7 30) [] _)).
    reflexivity.
  - refine (proj1 (proj2 (C2_fallback_then_no_assignment [] [] "service_bay"
                            [("emergency", JStr "24/7 on-call")]
                            (mkDate Tuesday 7 30) [] _) _)).
    + reflexivity.
    + reflexivity.
Defined.

(** C2 as stated fails: a unit with neither an entry for today nor a
    [default] gets no Closed status, and its card shows Open. *)
Lemma C2_counterexample :
  let result :=
    fst (checkCurrentStatus (JObj service_bay_entries) (mkDate Monday 12 0) []) in
  status_get result "service_bay" = Undefined /\
  status_get result "service_bay" <> Own Closed /\
  card_status "service_bay" result = Open.
Proof. cbv. repeat split. discriminate. Qed.

(** C3 as stated fails: the close time 25:70 is malformed for the
    specification, yet the unit is evaluated with it and reported Open at
    noon. *)
Lemma C3_counterexample :
  let result :=
    fst (checkCurrentStatus (JObj late_close_entries) (mkDate Monday 12 0) []) in
  Spec.time_of_day "25:70" = None /\
  timeStringToNumber (Some (JStr "25:70")) = Normal (Num 2570) /\
  status_get result "restaurant" = Own Open /\
  status_get result "restaurant" <> Own Closed.
Proof. cbv. repeat split. discriminate. Qed.

(** C6, as the code has it.  The method writes into the shared status map,
    so its result depends on the map it starts from; what it assigns to a
    unit with day data, and how it ends, depend on the schedule and the
    instant only, and a second pass with the same schedule and instant
    leaves the map as the first pass left it. *)
Theorem C6_deterministic_and_idempotent
    (entries : list (string * json)) (now : Date) :
  NoDup (map fst entries) ->
  (forall st,
     checkCurrentStatus (JObj entries) now
       (fst (checkCurrentStatus (JObj entries) now st))
     = checkCurrentStatus (JObj entries) now st) /\
  (forall st1 st2,
     snd (checkCurrentStatus (JObj entries) now st1)
     = snd (checkCurrentStatus (JObj entries) now st2)) /\
  (forall st1 st2 unit hours s,
     In (unit, hours) entries ->
     unit <> "__proto__" ->
     unit_status hours now = Normal (Some s) ->
     snd (checkCurrentStatus (JObj entries) now st1) = Returned ->
     status_get (fst (checkCurrentStatus (JObj entries) now st1)) unit = Own s /\
     status_get (fst (checkCurrentStatus (JObj entries) now st2)) unit = Own s) /\
  (forall st unit hours,
     In (unit, hours) entries ->
     unit_status hours now = Normal None ->
     status_get (fst (checkCurrentStatus (JObj entries) now st)) unit
     = status_get st unit).
Proof.
  intros Hnd. split; [|split; [|split]].
  - intros st. rewrite !checkCurrentStatus_object.
    apply injective_projections.
    + apply forEach_status_fixed; [exact Hnd|].
      intros k s Hk. now rewrite forEach_status_assoc, Hk.
    + apply forEach_status_outcome.
  - intros st1 st2. rewrite !checkCurrentStatus_object.
    apply forEach_status_outcome.
  - intros st1 st2 unit hours s Hin Hp Hs Hret.
    split; apply (checkCurrentStatus_assigns entries now _ unit hours);
      try assumption.
    rewrite checkCurrentStatus_object in *.
    now rewrite (forEach_status_outcome now entries st2 st1).
  - intros st unit hours Hin Hs. apply status_get_assoc.
    apply (checkCurrentStatus_keeps entries now st unit hours Hnd Hin).
    intros s. rewrite Hs. discriminate.
Qed.

Lemma C6_deterministic_and_idempotent_witness :
  checkCurrentStatus restaurant_schedule (mkDate Tuesday 19 59)
    (fst (checkCurrentStatus restaurant_schedule (mkDate Tuesday 19 59)
            [("car_wash", Closed)]))
  = checkCurrentStatus restaurant_schedule (mkDate Tuesday 19 59)
      [("car_wash", Closed)].
Proof.
  refine (proj1 (C6_deterministic_and_idempotent restaurant_entries
                   (mkDate Tuesday 19 59) _) [("car_wash", Closed)]).
  repeat constructor; cbn; tauto.
Defined.

(** C6 as stated fails: with the same schedule and instant, two earlier
    status maps give two different results. *)
Lemma C6_counterexample :
  checkCurrentStatus car_wash_schedule (mkDate Tuesday 12 0) []
  <> checkCurrentStatus car_wash_schedule (mkDate Tuesday 12 0) [("car_wash", Open)].
Proof. cbv. discriminate. Qed.

(** C8.  A unit with a [default] window and no entry under any weekday name
    gets, on each of the seven days and at every time, the status of the
    default window: Open exactly when its open minute <= now < its close
    minute.  (Well-formed default times, in a schedule of the promised
    shape, for a unit key the status map can store.) *)
Theorem C8_default_only_every_day
    (entries : list (string * json)) (st : status_map) (unit : string)
    (props : list (string * json)) (w : json) (o c : string) (om cm : Z) :
  (forall d, assoc (day_name d) props = None) ->
  assoc "default" props = Some w ->
  get (Some w) "open" = Normal (Some (JStr o)) ->
  get (Some w) "close" = Normal (Some (JStr c)) ->
  Spec.minutes_since_midnight o = Some om ->
  Spec.minutes_since_midnight c = Some cm ->
  NoDup (map fst entries) ->
  In (unit, JObj props) entries ->
  unit <> "__proto__" ->
  schedule_typed entries = true ->
  forall (d : Weekday) (h m : Z),
    valid_date (mkDate d h m) ->
    checkCurrentStatus (JObj entries) (mkDate d h m) st
    = (fst (checkCurrentStatus (JObj entries) (mkDate d h m) st), Returned) /\
    status_get (fst (checkCurrentStatus (JObj entries) (mkDate d h m) st)) unit
    = Own (Spec.status_at om (60 * h + m) cm).
Proof.
  intros Hdays Hdef Ho Hc Hom Hcm Hnd Hin Hp Hty d h m Hv.
  pose proof (schedule_typed_returns entries (mkDate d h m) st Hty) as Hret.
  split.
  - rewrite <- Hret. now destruct (checkCurrentStatus (JObj entries) (mkDate d h m) st).
  - apply (checkCurrentStatus_assigns entries (mkDate d h m) st unit (JObj props));
      try assumption.
    assert (Hd : dayHours_of (JObj props) (mkDate d h m) = Normal (Some w)).
    { unfold dayHours_of. cbn [get bind weekday].
      rewrite (Hdays d). cbn [truthy]. now rewrite Hdef. }
    rewrite (unit_status_resolved _ _ _ Hd).
    exact (window_status_times w o c om cm (mkDate d h m) Hv Ho Hc Hom Hcm).
Qed.

Lemma C8_default_only_every_day_witness :
  checkCurrentStatus (JObj supermarket_entries) (mkDate Sunday 19 59)
    [("supermarket", Closed)]
  = (fst (checkCurrentStatus (JObj supermarket_entries) (mkDate Sunday 19 59)
            [("supermarket", Closed)]), Returned) /\
  status_get
    (fst (checkCurrentStatus (JObj supermarket_entries) (mkDate Sunday 19 59)
            [("supermarket", Closed)])) "supermarket"
  = Own (Spec.status_at 480 (60 * 19 + 59) 1200).
Proof.
  refine (C8_default_only_every_day supermarket_entries [("supermarket", Closed)]
            "supermarket" [("default", window "08:00" "20:00")]
            (window "08:00" "20:00") "08:00" "20:00" 480 1200
            _ _ _ _ _ _ _ _ _ _ Sunday 19 59 _).
  - intros []; reflexivity.
  - reflexivity.
  - reflexivity.
  - reflexivity.
  - reflexivity.
  - reflexivity.
  - repeat constructor; cbn; tauto.
  - left; reflexivity.
  - discriminate.
  - reflexivity.
  - unfold valid_date; cbn; lia.
Defined.

(** The concrete scenario of the specification. *)
Example scenario_restaurant_monday_0700 :
  checkCurrentStatus restaurant_schedule (mkDate Monday 7 0) []
  = ([("restaurant", Open)], Returned).
Proof. reflexivity. Qed.

Example scenario_restaurant_tuesday_0730 :
  checkCurrentStatus restaurant_schedule (mkDate Tuesday 7 30) []
  = ([("restaurant", Closed)], Returned).
Proof. reflexivity. Qed.

Example scenario_restaurant_tuesday_1959 :
  checkCurrentStatus restaurant_schedule (mkDate Tuesday 19 59) []
  = ([("restaurant", Open)], Returned).
Proof. reflexivity. Qed.

(* ------------------------------------------------------------------ *)
(** ** Enumeration order of the status map *)

Lemma key_order_ok_new_last (k' k : string) :
  key_order_ok k' k = true ->
  enumerated_before k k' = false /\ (k =? k')%string = false.
Proof.
  unfold key_order_ok, enumerated_before.
  destruct (array_index k') as [i|] eqn:Ei; destruct (array_index k) as [j|] eqn:Ej;
    intros H; try discriminate.
  - apply N.ltb_lt in H. split.
    + apply N.ltb_ge. lia.
    + apply String.eqb_neq. intros ->. rewrite Ei in Ej. injection Ej as ->. lia.
  - split; [reflexivity|].
    apply String.eqb_neq. intros ->. congruence.
  - split; [reflexivity|].
    apply negb_true_iff in H. now rewrite String.eqb_sym.
Qed.

Lemma insert_new_last {A : Type} (k : string) (v : A) (m : list (string * A)) :
  Forall (fun k' => key_order_ok k' k = true) (map fst m) ->
  has_key k m = false /\ insert_new k v m = (m ++ [(k, v)])%list.
Proof.
  induction m as [|[k' v'] tl IH]; cbn; intros H.
  - split; reflexivity.
  - inversion H as [|? ? Hk Htl]. subst.
    destruct (key_order_ok_new_last k' k Hk) as [Hb He].
    destruct (IH Htl) as [IH1 IH2].
    rewrite He, Hb, IH1, IH2. split; reflexivity.
Qed.

Lemma enumeration_order_before (l1 l2 : list string) (k : string) :
  enumeration_order (l1 ++ k :: l2) = true ->
  Forall (fun k' => key_order_ok k' k = true) l1.
Proof.
  induction l1 as [|a tl IH]; cbn; intros H; [constructor|].
  apply andb_true_iff in H as [Ha Htl].
  constructor; [|now apply IH].
  rewrite forallb_forall in Ha. apply Ha, in_elt.
Qed.

Lemma enumeration_order_remove (l1 l2 : list string) (k : string) :
  enumeration_order (l1 ++ k :: l2) = true ->
  enumeration_order (l1 ++ l2) = true.
Proof.
  induction l1 as [|a tl IH]; cbn; intros H.
  - now apply andb_true_iff in H as [_ H].
  - apply andb_true_iff in H as [Ha Htl].
    apply andb_true_iff. split; [|now apply IH].
    rewrite forallb_forall in *. intros x Hx. apply Ha.
    apply in_app_or in Hx as [Hx|Hx]; apply in_or_app; [now left|right; now right].
Qed.

Lemma enumeration_order_NoDup (ks : list string) :
  enumeration_order ks = true -> NoDup ks.
Proof.
  induction ks as [|k tl IH]; cbn; intros H; [constructor|].
  apply andb_true_iff in H as [Hk Htl].
  constructor; [|now apply IH].
  intros Hin. rewrite forallb_forall in Hk. specialize (Hk k Hin).
  destruct (key_order_ok_new_last k k Hk) as [_ He].
  now rewrite String.eqb_refl in He.
Qed.

Lemma status_set_last (unit : string) (s : Status) (m : status_map) :
  unit <> "__proto__" ->
  Forall (fun k' => key_order_ok k' unit = true) (map fst m) ->
  status_set unit s m = (m ++ [(unit, s)])%list.
Proof.
  intros Hp H. unfold status_set.
  apply String.eqb_neq in Hp. rewrite Hp.
  destruct (insert_new_last unit s m H) as [-> ->]. reflexivity.
Qed.

Section Assigned.

Variable now : Date.

Lemma assigned_keys (entries : list (string * json)) (k : string) :
  In k (map fst (assigned entries now)) ->
  k <> "__proto__" /\
  exists hours s, In (k, hours) entries /\ unit_status hours now = Normal (Some s).
Proof.
  induction entries as [|[u h] tl IH]; cbn; [contradiction|].
  destruct (unit_status h now) as [[s|]|] eqn:E; cbn; try contradiction.
  - destruct (u =? "__proto__")%string eqn:Hp; cbn.
    + intros H. destruct (IH H) as (Hk & hours & s' & Hin & Hs).
      split; [exact Hk|]. exists hours, s'. split; [right|]; assumption.
    + intros [<-|H].
      * split; [now apply String.eqb_neq|].
        exists h, s. split; [left; reflexivity | exact E].
      * destruct (IH H) as (Hk & hours & s' & Hin & Hs).
        split; [exact Hk|]. exists hours, s'. split; [right|]; assumption.
  - intros H. destruct (IH H) as (Hk & hours & s' & Hin & Hs).
    split; [exact Hk|]. exists hours, s'. split; [right|]; assumption.
Qed.

Lemma assigned_keys_incl (entries : list (string * json)) (k : string) :
  In k (map fst (assigned entries now)) -> In k (map fst entries).
Proof.
  intros H. destruct (assigned_keys entries k H) as (_ & hours & s & Hin & _).
  change k with (fst (k, hours)). now apply in_map.
Qed.

Lemma assigned_enumeration_order (entries : list (string * json)) :
  enumeration_order (map fst entries) = true ->
  enumeration_order (map fst (assigned entries now)) = true.
Proof.
  induction entries as [|[u h] tl IH]; cbn; [reflexivity|].
  intros H. apply andb_true_iff in H as [Hu Htl].
  destruct (unit_status h now) as [[s|]|]; cbn; auto.
  destruct (u =? "__proto__")%string; cbn; auto.
  apply andb_true_iff. split; [|now apply IH].
  rewrite forallb_forall in *. intros x Hx.
  now apply Hu, assigned_keys_incl.
Qed.

(** Starting from a map whose keys precede those of the entries, the pass
    appends what it assigns. *)
Lemma forEach_status_appends (entries : list (string * json)) :
  forall st : status_map,
    enumeration_order (map fst st ++ map fst entries) = true ->
    fst (forEach_status entries now st) = (st ++ assigned entries now)%list.
Proof.
  induction entries as [|[u h] tl IH]; intros st H; cbn.
  - now rewrite app_nil_r.
  - cbn in H.
    pose proof (enumeration_order_remove _ _ _ H) as Hrm.
    destruct (unit_status h now) as [[s|]|]; cbn.
    + destruct (u =? "__proto__")%string eqn:Hp.
      * unfold status_set. rewrite Hp. now apply IH.
      * apply String.eqb_neq in Hp.
        rewrite (status_set_last u s st Hp (enumeration_order_before _ _ _ H)).
        rewrite IH.
        -- now rewrite <- app_assoc.
        -- now rewrite map_app, <- app_assoc.
    + now apply IH.
    + now rewrite app_nil_r.
Qed.

End Assigned.

Lemma window_status_guard_true (dayHours : option json) (now : Date) :
  window_guard dayHours = Normal true -> window_status dayHours now <> Normal None.
Proof.
  intros Hg. unfold window_status. rewrite Hg. cbn [bind].
  destruct (get dayHours "open") as [op|]; cbn [bind]; [|discriminate].
  destruct (timeStringToNumber op); cbn [bind]; [|discriminate].
  destruct (get dayHours "close") as [cl|]; cbn [bind]; [|discriminate].
  destruct (timeStringToNumber cl); cbn [bind]; discriminate.
Qed.

(** In a unit schedule of the promised shape the callback assigns a status
    exactly when it finds day data. *)
Lemma unit_typed_status (hours : json) (now : Date) :
  unit_typed hours = true ->
  if has_day_data hours now
  then exists s, unit_status hours now = Normal (Some s)
  else unit_status hours now = Normal None.
Proof.
  intros Hty. pose proof (unit_typed_no_throw hours now Hty) as Hnt.
  unfold has_day_data, unit_status in *.
  destruct (dayHours_of hours now) as [dh|]; [|now elim Hnt].
  cbn [bind] in *.
  destruct (window_guard dh) as [[|]|] eqn:Hg.
  - destruct (window_status dh now) as [[s|]|] eqn:E.
    + now exists s.
    + now elim (window_status_guard_true dh now Hg).
    + now elim Hnt.
  - unfold window_status. now rewrite Hg.
  - destruct (window_guard_total dh) as [ok Hok]. congruence.
Qed.

Lemma assigned_typed_keys (entries : list (string * json)) (now : Date) :
  schedule_typed entries = true ->
  map fst (assigned entries now)
  = map fst (filter (fun e => negb (fst e =? "__proto__")%string
                              && has_day_data (snd e) now) entries).
Proof.
  induction entries as [|[u h] tl IH]; cbn; [reflexivity|].
  intros H. apply andb_true_iff in H as [Hu Htl]. specialize (IH Htl).
  pose proof (unit_typed_status h now Hu) as Hs.
  destruct (has_day_data h now).
  - destruct Hs as [s ->].
    destruct (u =? "__proto__")%string; cbn; [exact IH | now rewrite IH].
  - rewrite Hs. rewrite andb_false_r. exact IH.
Qed.

(** C5, as the code has it.  For a schedule of the promised shape (unit
    schedules are objects, [open] and [close] are strings where present),
    a pass from an empty status map returns and leaves exactly one entry for
    each unit key of the schedule whose resolved day data has a truthy
    [open] and [close] - none for a unit without such data, none for the
    key [__proto__], none under any other key - in the schedule's iteration
    order.  When every unit has such data the keys of the result are the
    keys of the schedule; on the empty schedule the status map is left as
    it is. *)
Theorem C5_entries_for_units_with_day_data
    (entries : list (string * json)) (now : Date) :
  enumeration_order (map fst entries) = true ->
  schedule_typed entries = true ->
  let result := fst (checkCurrentStatus (JObj entries) now []) in
  checkCurrentStatus (JObj entries) now [] = (result, Returned) /\
  map fst result
  = map fst (filter (fun e => negb (fst e =? "__proto__")%string
                              && has_day_data (snd e) now) entries) /\
  NoDup (map fst result) /\
  (forall k, In k (map fst result) -> In k (map fst entries)) /\
  ((forall unit hours, In (unit, hours) entries ->
      unit <> "__proto__" /\ has_day_data hours now = true) ->
   map fst result = map fst entries) /\
  (forall st, checkCurrentStatus (JObj []) now st = (st, Returned)).
Proof.
  intros Hord Hty result.
  assert (Hres : result = assigned entries now).
  { subst result. rewrite checkCurrentStatus_object.
    now rewrite (forEach_status_appends now entries []). }
  assert (Hkeys := assigned_typed_keys entries now Hty).
  split; [|split; [|split; [|split; [|split]]]].
  - pose proof (schedule_typed_returns entries now [] Hty) as Hret.
    subst result. rewrite <- Hret.
    now destruct (checkCurrentStatus (JObj entries) now []).
  - now rewrite Hres.
  - rewrite Hres.
    apply enumeration_order_NoDup. now apply assigned_enumeration_order.
  - intros k. rewrite Hres. apply assigned_keys_incl.
  - intros Hall. rewrite Hres, Hkeys. f_equal.
    clear - Hall. induction entries as [|[u h] tl IH]; cbn; [reflexivity|].
    destruct (Hall u h (or_introl eq_refl)) as [Hp Hd].
    apply String.eqb_neq in Hp. rewrite Hp, Hd. cbn. f_equal.
    apply IH. intros unit hours Hin. apply Hall. now right.
  - reflexivity.
Qed.

Lemma C5_entries_for_units_with_day_data_witness :
  checkCurrentStatus (JObj mixed_entries) (mkDate Monday 12 0) []
  = (fst (checkCurrentStatus (JObj mixed_entries) (mkDate Monday 12 0) []), Returned) /\
  map fst (fst (checkCurrentStatus (JObj mixed_entries) (mkDate Monday 12 0) []))
  = ["7"; "restaurant"; "car_wash"].
Proof.
  destruct (C5_entries_for_units_with_day_data mixed_entries (mkDate Monday 12 0))
    as (H1 & H2 & _).
  - reflexivity.
  - reflexivity.
  - split; [exact H1 | exact H2].
Defined.

(** C5 as stated fails: the schedule has the unit key [car_wash], and on a
    Tuesday the status map gets no entry for it. *)
Lemma C5_counterexample :
  In "car_wash" (map fst car_wash_entries) /\
  checkCurrentStatus car_wash_schedule (mkDate Tuesday 12 0) [] = ([], Returned) /\
  ~ In "car_wash"
      (map fst (fst (checkCurrentStatus car_wash_schedule (mkDate Tuesday 12 0) []))).
Proof.
  split; [left; reflexivity|]. split; [reflexivity|].
  cbv. tauto.
Qed.

Example mixed_schedule_monday_noon :
  checkCurrentStatus (JObj mixed_entries) (mkDate Monday 12 0) []
  = ([("7", Open); ("restaurant", Open); ("car_wash", Closed)], Returned).
Proof. reflexivity. Qed.

(* ------------------------------------------------------------------ *)
(** ** The hours of a card *)

Lemma line_due_unique (props : list (string * json)) (d : Weekday)
    (o c o' c' : json) :
  line_due props d o c -> line_due props d o' c' -> o' = o /\ c' = c.
Proof.
  intros (w & Hw & Ho & _ & Hc & _) (w' & Hw' & Ho' & _ & Hc' & _).
  assert (w' = w) by congruence. subst w'.
  split; congruence.
Qed.


(** The callback of [days.forEach] appends nothing, or builds the one block
    that is due. *)
Lemma day_line_object (props : list (string * json)) (d : Weekday) :
  (day_line (JObj props) d = Normal [] /\ forall o c, ~ line_due props d o c) \/
  (exists o c,
     line_due props d o c /\
     day_line (JObj props) d
     = (o' <- interpolate o ;; c' <- interpolate c ;; Normal [DayLine d o' c'])).
Proof.
  unfold day_line, line_due. cbn [get bind].
  destruct (assoc (day_name d) props) as [w|] eqn:Ew.
  2:{ left. split; [reflexivity|].
      intros o c (w & Hw & _). discriminate. }
  destruct w as [| b | n | s | items | wprops].
  1-5: left;
       (split;
        [ unfold window_guard; cbn;
          repeat match goal with
                 | |- context [if ?b then _ else _] => destruct b; cbn
                 end; reflexivity
        | intros o c (w & Hw & Ho & _);
          injection Hw as <-; discriminate Ho ]).
  unfold window_guard. cbn [truthy get bind].
  destruct (assoc "open" wprops) as [o|] eqn:Eo.
  2:{ left. split; [reflexivity|].
      intros o c (w & Hw & Ho & _).
      injection Hw as <-. cbn in Ho. congruence. }
  destruct (truthy (Some o)) eqn:To.
  2:{ left. split; [reflexivity|].
      intros o' c (w & Hw & Ho & To' & _).
      injection Hw as <-. cbn in Ho.
      assert (o' = o) by congruence. subst o'.
      unfold truthy in To, To'. congruence. }
  cbn [bind].
  destruct (assoc "close" wprops) as [c|] eqn:Ec.
  2:{ left. split; [reflexivity|].
      intros o' c (w & Hw & _ & _ & Hc & _).
      injection Hw as <-. cbn in Hc. congruence. }
  destruct (truthy (Some c)) eqn:Tc.
  2:{ left. split; [reflexivity|].
      intros o' c' (w & Hw & _ & _ & Hc & Tc').
      injection Hw as <-. cbn in Hc.
      assert (c' = c) by congruence. subst c'.
      unfold truthy in Tc, Tc'. congruence. }
  cbn [bind]. right. exists o, c. split; [|reflexivity].
  exists (JObj wprops). cbn [get]. rewrite Eo, Ec. auto.
Qed.






Lemma card_values_pass_listed (test : json -> bool) (props : list (string * json)) :
  card_values_pass test props = true -> listed_values test props.
Proof.
  unfold card_values_pass. intros H. apply andb_true_iff in H as [Hd He].
  rewrite forallb_forall in Hd. split.
  - intros d o c (w & Hw & Ho & _ & Hc & _).
    specialize (Hd d (all_days d)). rewrite Hw in Hd.
    destruct (get_Some_inv _ _ _ Ho) as (p & -> & Eo).
    cbn [get] in Hc. injection Hc as Ec.
    cbn [window_passes] in Hd. rewrite Eo, Ec in Hd. cbn in Hd.
    now apply andb_true_iff in Hd.
  - intros e Ee _. rewrite Ee in He. exact He.
Qed.



Example scrambled_card :
  createHoursCard "restaurant" scrambled_hours [("restaurant", Closed)]
  = Normal (mkCard Closed
              [DayLine Monday (JStr "07:00") (JStr "22:00");
               DayLine Sunday (JStr "09:00") (JStr "17:00");
               EmergencyLine (JStr "24/7 on-call")]).
Proof. reflexivity. Qed.

(* ------------------------------------------------------------------ *)
(** ** Further properties of the status pass *)

(** What the callback reads of a unit's schedule: today's entry and
    [default].  Two schedules that agree on these get the same status, so
    an [emergency] text never changes it. *)
Theorem unit_status_reads_today_and_default
    (props : list (string * json)) (now : Date) :
  (forall props',
     assoc (day_name (weekday now)) props' = assoc (day_name (weekday now)) props ->
     assoc "default" props' = assoc "default" props ->
     unit_status (JObj props') now = unit_status (JObj props) now) /\
  (forall e, unit_status (JObj (("emergency", e) :: props)) now
             = unit_status (JObj props) now).
Proof.
  assert (H : forall props',
             assoc (day_name (weekday now)) props' = assoc (day_name (weekday now)) props ->
             assoc "default" props' = assoc "default" props ->
             unit_status (JObj props') now = unit_status (JObj props) now).
  { intros props' Hd Hf. unfold unit_status, dayHours_of. cbn [get bind].
    now rewrite Hd, Hf. }
  split; [exact H|].
  intros e. apply H; [|reflexivity].
  now destruct (weekday now).
Qed.

Lemma window_guard_true (dayHours : option json) :
  window_guard dayHours = Normal true ->
  exists p o c,
    dayHours = Some (JObj p) /\
    assoc "open" p = Some o /\ truthy (Some o) = true /\
    assoc "close" p = Some c /\ truthy (Some c) = true.
Proof.
  unfold window_guard.
  destruct dayHours as [[| b | n | s | items | p]|].
  1-5, 7: cbn;
    repeat match goal with
           | |- context [if ?b then _ else _] => destruct b; cbn
           end; discriminate.
  cbn [truthy get bind].
  destruct (assoc "open" p) as [o|] eqn:Eo; [|cbn; discriminate].
  destruct (truthy (Some o)) eqn:To; [|discriminate]. cbn [bind].
  destruct (assoc "close" p) as [c|] eqn:Ec; [|cbn; discriminate].
  intros H. injection H as Tc.
  exists p, o, c. auto.
Qed.

Lemma timeStringToNumber_throws (v : option json) :
  timeStringToNumber v = TypeError <-> truthy v = true /\ is_string v = false.
Proof.
  unfold timeStringToNumber.
  destruct v as [[| b | n | s | items | p]|]; cbn;
    try destruct b; try destruct (n =? 0); try destruct (s =? "")%string; cbn;
    (split;
     [ intros H; try discriminate H; auto
     | intros [H1 H2]; try discriminate H1; try discriminate H2; auto ]).
Qed.

(** When the callback throws: on a [null] unit schedule, and on a window
    that passes the guard with an [open] or [close] that is not a string
    (the value has no [split]); never otherwise. *)
Theorem unit_status_throws_iff (hours : json) (now : Date) :
  unit_status hours now = TypeError <->
  hours = JNull \/
  exists p o c,
    dayHours_of hours now = Normal (Some (JObj p)) /\
    assoc "open" p = Some o /\ truthy (Some o) = true /\
    assoc "close" p = Some c /\ truthy (Some c) = true /\
    (is_string (Some o) = false \/ is_string (Some c) = false).
Proof.
  split.
  - intros H. destruct hours as [| b | n | s | items | props];
      try (exfalso; cbn in H; discriminate H); [now left|].
    right. unfold unit_status in H.
    destruct (dayHours_of (JObj props) now) as [dh|] eqn:Ed; [|discriminate Ed
      || (unfold dayHours_of in Ed; cbn in Ed;
          destruct (truthy (assoc (day_name (weekday now)) props)); discriminate)].
    cbn [bind] in H. unfold window_status in H.
    destruct (window_guard dh) as [[|]|] eqn:Eg; cbn [bind] in H; try discriminate H.
    + destruct (window_guard_true dh Eg) as (p & o & c & -> & Eo & To & Ec & Tc).
      exists p, o, c. split; [reflexivity|]. repeat (split; [assumption|]).
      cbn [get bind] in H. rewrite Eo, Ec in H.
      destruct (timeStringToNumber (Some o)) as [x|] eqn:Tx.
      * cbn [bind] in H.
        destruct (timeStringToNumber (Some c)) as [y|] eqn:Ty; [discriminate H|].
        right. now apply timeStringToNumber_throws in Ty.
      * left. now apply timeStringToNumber_throws in Tx.
    + destruct (window_guard_total dh) as [ok Hok]. congruence.
  - intros [-> | (p & o & c & Hd & Eo & To & Ec & Tc & Hs)]; [reflexivity|].
    unfold unit_status. rewrite Hd. cbn [bind].
    unfold window_status, window_guard. cbn [truthy get bind].
    rewrite Eo, To. cbn [bind]. rewrite Ec, Tc. cbn [bind].
    destruct (timeStringToNumber (Some o)) as [x|] eqn:Tx; [|reflexivity].
    cbn [bind].
    destruct (timeStringToNumber (Some c)) as [y|] eqn:Ty; [|reflexivity].
    exfalso. destruct Hs as [Hs|Hs].
    + assert (timeStringToNumber (Some o) = TypeError)
        by (apply timeStringToNumber_throws; auto). congruence.
    + assert (timeStringToNumber (Some c) = TypeError)
        by (apply timeStringToNumber_throws; auto). congruence.
Qed.

Lemma forEach_status_app (now : Date) (l1 l2 : list (string * json)) :
  forall st,
    forEach_status (l1 ++ l2) now st
    = match forEach_status l1 now st with
      | (st1, Returned) => forEach_status l2 now st1
      | (st1, Threw) => (st1, Threw)
      end.
Proof.
  induction l1 as [|[u h] tl IH]; intros st; cbn; [reflexivity|].
  destruct (unit_status h now) as [[s|]|]; auto.
Qed.

(** A throw ends the pass: the units before the throwing one have been
    assigned, the units after it are not visited and keep their entries. *)
Theorem checkCurrentStatus_stops_at_throw
    (l1 l2 : list (string * json)) (unit : string) (hours : json)
    (now : Date) (st : status_map) :
  unit_status hours now = TypeError ->
  checkCurrentStatus (JObj (l1 ++ (unit, hours) :: l2)) now st
  = (fst (checkCurrentStatus (JObj l1) now st), Threw).
Proof.
  intros Hs. rewrite !checkCurrentStatus_object, forEach_status_app.
  destruct (forEach_status l1 now st) as [st1 [|]]; cbn; [|reflexivity].
  now rewrite Hs.
Qed.

Lemma checkCurrentStatus_stops_at_throw_witness :
  checkCurrentStatus
    (JObj (restaurant_entries ++ ("supermarket", JNull) :: car_wash_entries))
    (mkDate Monday 12 0) []
  = (fst (checkCurrentStatus (JObj restaurant_entries) (mkDate Monday 12 0) []),
     Threw).
Proof.
  apply (checkCurrentStatus_stops_at_throw restaurant_entries car_wash_entries
           "supermarket" JNull (mkDate Monday 12 0) []).
  reflexivity.
Defined.

Lemma forEach_status_characters (now : Date) (s : string) :
  forall i st,
    forEach_status (indexed i (characters s)) now st = (st, Returned).
Proof.
  induction s as [|c tl IH]; intros i st; cbn; [reflexivity|]. apply IH.
Qed.

(** [hoursData] is only tested for truthiness: a value that is neither an
    object nor an array (null, a boolean, a number, a string) makes the pass
    return without assigning anything. *)
Theorem checkCurrentStatus_without_units
    (hoursData : json) (now : Date) (st : status_map) :
  (forall props, hoursData <> JObj props) ->
  (forall items, hoursData <> JArr items) ->
  checkCurrentStatus hoursData now st = (st, Returned).
Proof.
  intros Ho Ha. unfold checkCurrentStatus.
  destruct hoursData as [| b | n | s | items | props]; cbn.
  - reflexivity.
  - now destruct b.
  - now destruct (n =? 0).
  - destruct (s =? "")%string; cbn; [reflexivity|].
    apply forEach_status_characters.
  - now elim (Ha items).
  - now elim (Ho props).
Qed.

Lemma checkCurrentStatus_without_units_witness :
  checkCurrentStatus (JStr "closed today") (mkDate Monday 12 0) [("restaurant", Open)]
  = ([("restaurant", Open)], Returned).
Proof.
  apply (checkCurrentStatus_without_units (JStr "closed today")
           (mkDate Monday 12 0) [("restaurant", Open)]); discriminate.
Defined.

(** A pass never removes an entry: a key that has a status before the call
    has one after it, however the call ends. *)
Theorem checkCurrentStatus_keeps_keys
    (entries : list (string * json)) (now : Date) (st : status_map) (k : string) :
  assoc k st <> None ->
  assoc k (fst (checkCurrentStatus (JObj entries) now st)) <> None.
Proof.
  intros H. rewrite checkCurrentStatus_object, forEach_status_assoc.
  now destruct (assigned_to k entries now).
Qed.

Lemma checkCurrentStatus_keeps_keys_witness :
  assoc "car_wash"
    (fst (checkCurrentStatus restaurant_schedule (mkDate Monday 12 0)
            [("car_wash", Closed)])) <> None.
Proof.
  apply (checkCurrentStatus_keeps_keys restaurant_entries (mkDate Monday 12 0)
           [("car_wash", Closed)] "car_wash").
  discriminate.
Defined.

Lemma split_colon_piece (p rest : string) :
  colon_free p = true ->
  split_colon (p ++ String ":" rest) = p :: split_colon rest.
Proof.
  induction p as [|c tl IH]; cbn; [reflexivity|].
  intros H. apply andb_true_iff in H as [Hc Htl].
  apply negb_true_iff in Hc. rewrite Hc, (IH Htl). reflexivity.
Qed.

Lemma split_colon_colon_free (p : string) :
  colon_free p = true -> split_colon p = [p].
Proof.
  induction p as [|c tl IH]; cbn; [reflexivity|].
  intros H. apply andb_true_iff in H as [Hc Htl].
  apply negb_true_iff in Hc. rewrite Hc, (IH Htl). reflexivity.
Qed.

(** Only the first two pieces of a time string count: seconds, or anything
    else after a second colon, do not change the number. *)
Theorem timeStringToNumber_ignores_seconds (hh mm rest : string) :
  colon_free hh = true ->
  colon_free mm = true ->
  timeStringToNumber (Some (JStr (hh ++ String ":" (mm ++ String ":" rest))))
  = timeStringToNumber (Some (JStr (hh ++ String ":" mm))).
Proof.
  intros Hh Hm. unfold timeStringToNumber.
  assert (T1 : truthy (Some (JStr (hh ++ String ":" (mm ++ String ":" rest)))) = true)
    by (destruct hh; reflexivity).
  assert (T2 : truthy (Some (JStr (hh ++ String ":" mm))) = true)
    by (destruct hh; reflexivity).
  rewrite T1, T2. cbn [negb].
  rewrite !(split_colon_piece hh _ Hh), (split_colon_piece mm rest Hm),
    (split_colon_colon_free mm Hm).
  reflexivity.
Qed.

Lemma timeStringToNumber_ignores_seconds_witness :
  timeStringToNumber (Some (JStr "08:30:45")) = timeStringToNumber (Some (JStr "08:30")).
Proof.
  apply (timeStringToNumber_ignores_seconds "08" "30" "45"); reflexivity.
Defined.

(* ------------------------------------------------------------------ *)
(** ** Times that are not well-formed *)

Lemma is_decimal_digit_value (c : ascii) :
  is_decimal_digit c = true ->
  Spec.decimal_digit c = Some (Z.of_nat (nat_of_ascii c) - 48).
Proof. unfold Spec.decimal_digit. now intros ->. Qed.

Lemma all_digits_colon_free (s : string) :
  all_digits s = true -> colon_free s = true.
Proof.
  induction s as [|c tl IH]; cbn; [reflexivity|].
  intros H. apply andb_true_iff in H as [Hc Htl].
  destruct (decimal_digit_char c _ (is_decimal_digit_value c Hc))
    as (_ & _ & _ & Hcolon & _).
  now rewrite Hcolon, (IH Htl).
Qed.

Lemma parse_digits_decimal (s : string) :
  forall acc : N,
    all_digits s = true ->
    exists v, decimal_value acc s = Some v /\
              parse_digits 10 (Some (Z.of_N acc)) s = Some (Z.of_N v).
Proof.
  induction s as [|c tl IH]; intros acc; cbn [all_digits decimal_value parse_digits].
  - intros _. now exists acc.
  - intros H. apply andb_true_iff in H as [Hc Htl].
    destruct (decimal_digit_char c _ (is_decimal_digit_value c Hc))
      as (Hr & _ & Hd & _).
    rewrite Hc, Hd.
    destruct (IH (acc * 10 + N.of_nat (nat_of_ascii c - 48))%N Htl) as (v & Hv & Hp).
    exists v. split; [exact Hv|]. rewrite <- Hp. do 2 f_equal. lia.
Qed.

(** [parseInt] on a non-empty string of decimal digits reads its number. *)
Lemma parseInt_string_digits (s : string) :
  all_digits s = true -> s <> EmptyString ->
  exists v, decimal_value 0 s = Some v /\ parseInt_string s = Num (Z.of_N v).
Proof.
  destruct s as [|a tl]; [now intros _ H|]. intros H _.
  cbn [all_digits] in H. apply andb_true_iff in H as [Ha Htl].
  destruct (decimal_digit_char a _ (is_decimal_digit_value a Ha))
    as (Hr & Hws & Hd & _ & Hm & Hp & _ & _).
  assert (Hhex : strip_hex_prefix (String a tl) = None).
  { unfold strip_hex_prefix. destruct tl as [|b tl']; [reflexivity|].
    cbn [all_digits] in Htl. apply andb_true_iff in Htl as [Hb _].
    destruct (decimal_digit_char b _ (is_decimal_digit_value b Hb))
      as (_ & _ & _ & _ & _ & _ & Hx & HX).
    now rewrite Hx, HX, andb_false_r. }
  destruct (parse_digits_decimal tl (N.of_nat (nat_of_ascii a - 48)) Htl)
    as (v & Hv & Hparse).
  exists v. split.
  - cbn [decimal_value]. now rewrite Ha.
  - unfold parseInt_string, strip_sign. cbn [trim_start].
    rewrite Hws, Hm, Hp, Hhex. cbn [parse_digits]. rewrite Hd.
    replace (Z.of_nat (nat_of_ascii a) - 48)
      with (Z.of_N (N.of_nat (nat_of_ascii a - 48))) by lia.
    rewrite Hparse. f_equal. lia.
Qed.

Lemma parseInt_digits_number (s : string) (n : Z) :
  digits_number s = Some n ->
  parseInt_string s = Num n /\ colon_free s = true.
Proof.
  unfold digits_number.
  destruct (all_digits s) eqn:Hd; [|discriminate].
  destruct (s =? "")%string eqn:He; [discriminate|].
  destruct (String.length s <=? 9)%nat; [|discriminate]. cbn [andb negb].
  apply String.eqb_neq in He.
  destruct (parseInt_string_digits s Hd He) as (v & Hv & Hp).
  rewrite Hv. intros H. injection H as <-.
  split; [exact Hp | now apply all_digits_colon_free].
Qed.

(** The number of a time written as digits, a colon and digits, whatever
    the digits: nothing is checked against 23 or 59, or for padding. *)
Lemma timeStringToNumber_digits (hh mm : string) (H M : Z) :
  digits_number hh = Some H ->
  digits_number mm = Some M ->
  timeStringToNumber (Some (JStr (hh ++ String ":" mm))) = Normal (Num (100 * H + M)).
Proof.
  intros Hh Hm.
  destruct (parseInt_digits_number hh H Hh) as [Ph Ch].
  destruct (parseInt_digits_number mm M Hm) as [Pm Cm].
  unfold timeStringToNumber.
  assert (T : truthy (Some (JStr (hh ++ String ":" mm))) = true)
    by (destruct hh; reflexivity).
  rewrite T. cbn [negb].
  rewrite (split_colon_piece hh mm Ch), (split_colon_colon_free mm Cm).
  cbn [nth_error parseInt]. rewrite Ph, Pm. cbn [num_mul num_add].
  do 2 f_equal. lia.
Qed.

(** A time without a colon has no minutes: its number is NaN. *)
Lemma timeStringToNumber_colon_free (s : string) :
  s <> EmptyString -> colon_free s = true ->
  timeStringToNumber (Some (JStr s)) = Normal NaN.
Proof.
  intros Hn Hc. unfold timeStringToNumber.
  assert (T : truthy (Some (JStr s)) = true)
    by (cbn; apply negb_true_iff, String.eqb_neq; exact Hn).
  rewrite T. cbn [negb]. rewrite (split_colon_colon_free s Hc).
  cbn [nth_error]. now destruct (parseInt (Some s)).
Qed.

Lemma assigned_to_visited (now : Date) (l1 l2 : list (string * json))
    (unit : string) (hours : json) (s : Status) :
  schedule_typed l1 = true ->
  ~ In unit (map fst l2) ->
  unit <> "__proto__" ->
  unit_status hours now = Normal (Some s) ->
  assigned_to unit (l1 ++ (unit, hours) :: l2) now = Some s.
Proof.
  intros Hty Hni Hp Hs. induction l1 as [|[u h] tl IH]; cbn.
  - rewrite Hs, (assigned_to_not_In now unit l2 Hni), String.eqb_refl.
    apply String.eqb_neq in Hp. now rewrite Hp.
  - cbn in Hty. apply andb_true_iff in Hty as [Hu Htl].
    rewrite (IH Htl).
    pose proof (unit_typed_no_throw h now Hu) as Hnt.
    destruct (unit_status h now) as [[s'|]|]; try reflexivity. now elim Hnt.
Qed.

(** C3, as the code has it.  [timeStringToNumber] does not validate.  For a
    window whose [open] and [close] are non-empty strings, well-formed or
    not, nothing is thrown and the day is not treated as absent: the unit
    gets a status, and the other units get what they get without this unit.
    Written as digits, a colon and digits (up to nine digits each), a time
    counts as hours * 100 + minutes with no range check - 25:70 is 2570, 7:5
    is 705 - and the unit is Open exactly when
    open number <= now.getHours() * 100 + now.getMinutes() < close number.
    A time without a colon gives NaN and the unit is Closed. *)
Theorem C3_malformed_times_are_not_rejected
    (l1 l2 : list (string * json)) (unit : string) (hours w : json)
    (o c : string) (now : Date) (st : status_map) :
  dayHours_of hours now = Normal (Some w) ->
  get (Some w) "open" = Normal (Some (JStr o)) ->
  get (Some w) "close" = Normal (Some (JStr c)) ->
  o <> EmptyString -> c <> EmptyString ->
  schedule_typed l1 = true ->
  ~ In unit (map fst l2) ->
  unit <> "__proto__" ->
  let with_unit := checkCurrentStatus (JObj (l1 ++ (unit, hours) :: l2)) now st in
  let without := checkCurrentStatus (JObj (l1 ++ l2)) now st in
  (status_get (fst with_unit) unit = Own Open \/
   status_get (fst with_unit) unit = Own Closed) /\
  snd with_unit = snd without /\
  (forall k, k <> unit ->
     status_get (fst with_unit) k = status_get (fst without) k) /\
  (forall ho mo hc mc Ho Mo Hc Mc,
     o = ho ++ String ":" mo -> c = hc ++ String ":" mc ->
     digits_number ho = Some Ho -> digits_number mo = Some Mo ->
     digits_number hc = Some Hc -> digits_number mc = Some Mc ->
     timeStringToNumber (Some (JStr o)) = Normal (Num (100 * Ho + Mo)) /\
     timeStringToNumber (Some (JStr c)) = Normal (Num (100 * Hc + Mc)) /\
     (status_get (fst with_unit) unit = Own Open <->
      100 * Ho + Mo <= 100 * getHours now + getMinutes now < 100 * Hc + Mc)) /\
  (colon_free o = true \/ colon_free c = true ->
   status_get (fst with_unit) unit = Own Closed).
Proof.
  intros Hd Ho Hc Hno Hnc Hty Hni Hp with_unit without.
  destruct (window_status_strings w o c now Ho Hc Hno Hnc)
    as (openTime & closeTime & T1 & T2 & Hw).
  assert (Hs : unit_status hours now
               = Normal (Some (if isOpen now openTime closeTime then Open else Closed)))
    by (now rewrite (unit_status_resolved _ _ _ Hd)).
  assert (Hnt : unit_status hours now <> TypeError) by (rewrite Hs; discriminate).
  assert (Hget : status_get (fst with_unit) unit
                 = Own (if isOpen now openTime closeTime then Open else Closed)).
  { subst with_unit. rewrite checkCurrentStatus_object.
    unfold status_get. rewrite forEach_status_assoc.
    now rewrite (assigned_to_visited now l1 l2 unit hours _ Hty Hni Hp Hs). }
  split; [|split; [|split; [|split]]].
  - rewrite Hget. destruct (isOpen now openTime closeTime); auto.
  - subst with_unit without. rewrite !checkCurrentStatus_object.
    now apply outcome_without.
  - intros k Hk. apply status_get_assoc. subst with_unit without.
    rewrite !checkCurrentStatus_object, !forEach_status_assoc.
    now rewrite (assigned_to_without now l1 l2 unit hours k Hnt Hk).
  - intros ho mo hc mc Ho' Mo Hc' Mc -> -> Hho Hmo Hhc Hmc.
    pose proof (timeStringToNumber_digits ho mo Ho' Mo Hho Hmo) as N1.
    pose proof (timeStringToNumber_digits hc mc Hc' Mc Hhc Hmc) as N2.
    split; [exact N1|]. split; [exact N2|].
    assert (E1 : openTime = Num (100 * Ho' + Mo)) by congruence.
    assert (E2 : closeTime = Num (100 * Hc' + Mc)) by congruence.
    rewrite Hget, E1, E2. clear E1 E2.
    unfold isOpen, currentTime, num_ge, num_lt.
    replace (getHours now * 100 + getMinutes now)
      with (100 * getHours now + getMinutes now) by lia.
    destruct (100 * Ho' + Mo <=? 100 * getHours now + getMinutes now) eqn:E1;
      destruct (100 * getHours now + getMinutes now <? 100 * Hc' + Mc) eqn:E2;
      cbn [andb];
      try apply Z.leb_le in E1; try apply Z.leb_gt in E1;
      try apply Z.ltb_lt in E2; try apply Z.ltb_ge in E2;
      split; intros H; try reflexivity; try discriminate H; try lia;
      exfalso; lia.
  - intros [Hf|Hf]; rewrite Hget.
    + rewrite (timeStringToNumber_colon_free o Hno Hf) in T1.
      injection T1 as <-. reflexivity.
    + rewrite (timeStringToNumber_colon_free c Hnc Hf) in T2.
      injection T2 as <-. unfold isOpen. cbn [num_lt].
      now rewrite andb_false_r.
Qed.

Lemma C3_malformed_times_are_not_rejected_witness :
  status_get
    (fst (checkCurrentStatus
            (JObj (car_wash_entries ++ ("restaurant", late_close_hours)
                     :: supermarket_entries))
            (mkDate Monday 12 0) [])) "restaurant" = Own Open
  <-> 100 * 7 + 0 <= 100 * 12 + 0 < 100 * 25 + 70.
Proof.
  destruct (C3_malformed_times_are_not_rejected car_wash_entries supermarket_entries
              "restaurant" late_close_hours (window "07:00" "25:70")
              "07:00" "25:70" (mkDate Monday 12 0) [])
    as (_ & _ & _ & Hnum & _).
  - reflexivity.
  - reflexivity.
  - reflexivity.
  - discriminate.
  - discriminate.
  - reflexivity.
  - cbn. intros [H|[]]. discriminate H.
  - discriminate.
  - destruct (Hnum "07" "00" "25" "70" 7 0 25 70) as (_ & _ & Hiff);
      try reflexivity.
    exact Hiff.
Defined.

(* ------------------------------------------------------------------ *)
(** ** Further properties of the hours card *)

Lemma forEach_day_reads_days (hours hours' : json) :
  (forall d, get (Some hours') (day_name d) = get (Some hours) (day_name d)) ->
  forall ds acc, forEach_day hours' ds acc = forEach_day hours ds acc.
Proof.
  intros H. induction ds as [|d tl IH]; intros acc; cbn [forEach_day]; [reflexivity|].
  unfold day_line. rewrite (H d).
  destruct (dayHours <- get (Some hours) (day_name d);; _) as [l|];
    cbn [bind]; [apply IH | reflexivity].
Qed.

(** What a card reads of a unit's schedule: the seven weekday entries and
    [emergency].  The [default] window, which decides the status on a day
    without entry, is never listed among the hours. *)
Theorem hoursHtml_reads_days_and_emergency (props : list (string * json)) :
  (forall props',
     (forall d, assoc (day_name d) props' = assoc (day_name d) props) ->
     assoc "emergency" props' = assoc "emergency" props ->
     hoursHtml (JObj props') = hoursHtml (JObj props)) /\
  (forall w, hoursHtml (JObj (("default", w) :: props)) = hoursHtml (JObj props)).
Proof.
  assert (H : forall props',
             (forall d, assoc (day_name d) props' = assoc (day_name d) props) ->
             assoc "emergency" props' = assoc "emergency" props ->
             hoursHtml (JObj props') = hoursHtml (JObj props)).
  { intros props' Hd He. unfold hoursHtml.
    rewrite (forEach_day_reads_days (JObj props) (JObj props'))
      by (intros d; cbn [get]; now rewrite Hd).
    cbn [get bind]. now rewrite He. }
  split; [exact H|].
  intros w. apply H; [|reflexivity].
  intros d. now destruct d.
Qed.

Lemma forEach_day_primitive (hours : json) (ds : list Weekday) :
  hours <> JNull -> (forall props, hours <> JObj props) ->
  forall acc, forEach_day hours ds acc = Normal acc.
Proof.
  intros Hn Ho. induction ds as [|d tl IH]; intros acc; cbn [forEach_day]; [reflexivity|].
  assert (Hd : day_line hours d = Normal []).
  { unfold day_line. destruct hours; try reflexivity; [now elim Hn | now elim (Ho props)]. }
  rewrite Hd. cbn [bind]. rewrite app_nil_r. apply IH.
Qed.

(** The loop over the days throws exactly when a line that is due holds a
    value without string conversion. *)
Lemma forEach_day_throws (props : list (string * json)) (ds : list Weekday) :
  forall acc,
    forEach_day (JObj props) ds acc = TypeError <->
    exists d o c,
      In d ds /\ line_due props d o c /\
      (convertible o = false \/ convertible c = false).
Proof.
  induction ds as [|d tl IH]; intros acc; cbn [forEach_day].
  - split; [discriminate|]. now intros (d & o & c & [] & _).
  - destruct (day_line_object props d) as [[-> Hnone] | (o & c & Hdue & ->)].
    + cbn [bind]. rewrite IH. split.
      * intros (d' & o & c & Hin & H). exists d', o, c. split; [now right | exact H].
      * intros (d' & o & c & [<-|Hin] & Hd & H).
        -- now elim (Hnone o c).
        -- now exists d', o, c.
    + unfold interpolate.
      destruct (convertible o) eqn:Co; cbn [bind];
        [destruct (convertible c) eqn:Cc; cbn [bind]|].
      * rewrite IH. split.
        -- intros (d' & o' & c' & Hin & H). exists d', o', c'.
           split; [now right | exact H].
        -- intros (d' & o' & c' & [<-|Hin] & Hd & H).
           ++ destruct (line_due_unique _ _ _ _ _ _ Hdue Hd) as [-> ->].
              destruct H; congruence.
           ++ now exists d', o', c'.
      * split; [|reflexivity]. intros _. exists d, o, c.
        split; [now left|]. split; [exact Hdue | now right].
      * split; [|reflexivity]. intros _. exists d, o, c.
        split; [now left|]. split; [exact Hdue | now left].
Qed.

Lemma hoursHtml_throws_iff (props : list (string * json)) :
  hoursHtml (JObj props) = TypeError <->
  (exists d o c, line_due props d o c /\
                 (convertible o = false \/ convertible c = false)) \/
  (exists e, assoc "emergency" props = Some e /\ truthy (Some e) = true /\
             convertible e = false).
Proof.
  unfold hoursHtml.
  destruct (forEach_day (JObj props) days []) as [L|] eqn:E; cbn [bind get].
  - assert (Hno : ~ exists d o c, line_due props d o c /\
                                  (convertible o = false \/ convertible c = false)).
    { intros (d & o & c & Hd & H).
      assert (forEach_day (JObj props) days [] = TypeError)
        by (apply forEach_day_throws; exists d, o, c;
            split; [apply all_days | split; assumption]).
      congruence. }
    destruct (assoc "emergency" props) as [e|] eqn:Ee.
    + destruct (truthy (Some e)) eqn:Te.
      * unfold interpolate. destruct (convertible e) eqn:Ce; cbn [bind].
        -- split; [discriminate|]. intros [H|(e' & He & _ & Hc)]; [now elim Hno|].
           injection He as <-. congruence.
        -- split; [|reflexivity]. intros _. right. exists e. auto.
      * split; [discriminate|]. intros [H|(e' & He & Ht & _)]; [now elim Hno|].
        injection He as <-. congruence.
    + split; [discriminate|]. intros [H|(e' & He & _)]; [now elim Hno | discriminate].
  - split; [|reflexivity]. intros _. left.
    apply forEach_day_throws in E as (d & o & c & _ & H). now exists d, o, c.
Qed.

Lemma createHoursCard_hoursHtml (unit : string) (hours : json) (st : status_map) :
  createHoursCard unit hours st
  = match hoursHtml hours with
    | Normal html => Normal (mkCard (card_status unit st) html)
    | TypeError => TypeError
    end.
Proof. unfold createHoursCard. now destruct (hoursHtml hours). Qed.

(** Building a card throws exactly for a [null] unit schedule and for an
    object that lists a value without string conversion (in a line that is
    due, or as a truthy [emergency]); for any other value that is not an
    object the card lists no hours at all. *)
Theorem createHoursCard_throws_iff
    (unit : string) (hours : json) (st : status_map) :
  (createHoursCard unit hours st = TypeError <->
   hours = JNull \/
   exists props,
     hours = JObj props /\
     ((exists d o c, line_due props d o c /\
                     (convertible o = false \/ convertible c = false)) \/
      (exists e, assoc "emergency" props = Some e /\ truthy (Some e) = true /\
                 convertible e = false))) /\
  (hours <> JNull -> (forall props, hours <> JObj props) ->
   createHoursCard unit hours st = Normal (mkCard (card_status unit st) [])).
Proof.
  assert (Hprim : hours <> JNull -> (forall props, hours <> JObj props) ->
                  createHoursCard unit hours st
                  = Normal (mkCard (card_status unit st) [])).
  { intros Hn Ho. unfold createHoursCard, hoursHtml.
    rewrite (forEach_day_primitive hours days Hn Ho). cbn [bind].
    destruct hours; try reflexivity; [now elim Hn | now elim (Ho props)]. }
  split; [|exact Hprim].
  destruct hours as [| b | n | s | items | props].
  1: split; [now left | reflexivity].
  1-4: rewrite Hprim by discriminate;
       (split; [discriminate|]; intros [H|(props & H & _)]; discriminate H).
  rewrite createHoursCard_hoursHtml. split.
  - intros H. right. exists props. split; [reflexivity|].
    apply hoursHtml_throws_iff.
    now destruct (hoursHtml (JObj props)).
  - intros [H|(props' & H & Hthrow)]; [discriminate H|].
    injection H as <-. apply hoursHtml_throws_iff in Hthrow. now rewrite Hthrow.
Qed.

(* ------------------------------------------------------------------ *)
(** ** The cards on the page *)

Lemma hoursHtml_returns (hours : json) :
  hours <> JNull ->
  (forall props, hours = JObj props -> listed_values convertible props) ->
  exists html, hoursHtml hours = Normal html.
Proof.
  intros Hn Hconv.
  destruct (hoursHtml hours) as [html|] eqn:E; [eauto|].
  exfalso.
  assert (Hc : createHoursCard "" hours [] = TypeError)
    by now rewrite createHoursCard_hoursHtml, E.
  apply (proj1 (createHoursCard_throws_iff "" hours [])) in Hc
    as [H | (props & -> & Hthrow)]; [contradiction|].
  destruct (Hconv props eq_refl) as [Hl He].
  destruct Hthrow as [(d & o & c & Hd & H) | (e & Ee & Te & Ce)].
  - destruct (Hl d o c Hd) as [Co Cc]. destruct H; congruence.
  - rewrite (He e Ee Te) in Ce. discriminate.
Qed.

Lemma cards_can_be_built_tail (e : string * json) (tl : list (string * json)) :
  cards_can_be_built (e :: tl) -> cards_can_be_built tl.
Proof. intros H u h Hin. apply H. now right. Qed.

Lemma forEach_render_cards_of (entries : list (string * json)) (st : status_map) :
  cards_can_be_built entries ->
  forall acc,
    forEach_render entries st acc = ((acc ++ cards_of entries st)%list, Returned).
Proof.
  induction entries as [|[u h] tl IH]; intros Hb acc; cbn.
  - now rewrite app_nil_r.
  - specialize (IH (cards_can_be_built_tail _ _ Hb)).
    destruct (unitsConfig u) as [cfg|] eqn:Ec; [|apply IH].
    destruct (Hb u h (or_introl eq_refl) ltac:(congruence)) as [Hn Hcv].
    destruct (hoursHtml_returns h Hn Hcv) as [html Hh].
    rewrite createHoursCard_hoursHtml, Hh.
    rewrite IH. now rewrite <- app_assoc.
Qed.

Lemma cards_of_labels (entries : list (string * json)) (st : status_map) :
  cards_can_be_built entries ->
  map (fun c => Some (label c)) (cards_of entries st)
  = map unitsConfig (rendered_units entries).
Proof.
  unfold rendered_units.
  induction entries as [|[u h] tl IH]; intros Hb; cbn; [reflexivity|].
  specialize (IH (cards_can_be_built_tail _ _ Hb)).
  destruct (unitsConfig u) as [cfg|] eqn:Ec; [|exact IH].
  destruct (Hb u h (or_introl eq_refl) ltac:(congruence)) as [Hn Hcv].
  destruct (hoursHtml_returns h Hn Hcv) as [html Hh].
  rewrite createHoursCard_hoursHtml, Hh. cbn. now rewrite Ec, IH.
Qed.

Lemma cards_of_In (entries : list (string * json)) (st : status_map) (c : HoursCard) :
  In c (cards_of entries st) ->
  exists unit hours config html,
    In (unit, hours) entries /\ unitsConfig unit = Some config /\
    hoursHtml hours = Normal html /\
    c = mkHoursCard config (mkCard (card_status unit st) html).
Proof.
  induction entries as [|[u h] tl IH]; cbn; [contradiction|].
  assert (Htl : In c (cards_of tl st) ->
                exists unit hours config html,
                  In (unit, hours) ((u, h) :: tl) /\ unitsConfig unit = Some config /\
                  hoursHtml hours = Normal html /\
                  c = mkHoursCard config (mkCard (card_status unit st) html)).
  { intros H. destruct (IH H) as (u' & h' & cfg & html & Hin & Hc & Hh & ->).
    exists u', h', cfg, html. split; [now right|]. auto. }
  destruct (unitsConfig u) as [cfg|] eqn:Ec; [|exact Htl].
  rewrite createHoursCard_hoursHtml.
  destruct (hoursHtml h) as [html|] eqn:Hh; [|exact Htl].
  intros [<-|H]; [|now apply Htl].
  exists u, h, cfg, html. split; [now left|]. auto.
Qed.

(** Rendering gives one card to each unit of the schedule that has a
    config, in the order of the schedule, and none to any other key. *)
Theorem renderOperatingHours_one_card_per_configured_unit
    (entries : list (string * json)) (st : status_map) (shown : content) :
  cards_can_be_built entries ->
  exists cards,
    renderOperatingHours (mkManager (JObj entries) st (Some shown))
    = (mkManager (JObj entries) st (Some (Cards cards)), Returned) /\
    map (fun c => Some (label c)) cards = map unitsConfig (rendered_units entries) /\
    (forall c, In c cards ->
       exists unit hours config html,
         In (unit, hours) entries /\ unitsConfig unit = Some config /\
         hoursHtml hours = Normal html /\
         c = mkHoursCard config (mkCard (card_status unit st) html)).
Proof.
  intros Hb. exists (cards_of entries st). split; [|split].
  - unfold renderOperatingHours. cbn.
    now rewrite (forEach_render_cards_of entries st Hb []).
  - now apply cards_of_labels.
  - intros c. apply cards_of_In.
Qed.

Lemma renderOperatingHours_one_card_per_configured_unit_witness :
  exists cards,
    renderOperatingHours
      (mkManager (JObj (("kiosk", JNull) :: mixed_entries)) [] (Some Spinner))
    = (mkManager (JObj (("kiosk", JNull) :: mixed_entries)) [] (Some (Cards cards)),
       Returned) /\
    map (fun c => Some (label c)) cards
    = [Some (Some "Restaurant"); Some (Some "Car Wash"); Some None].
Proof.
  destruct (renderOperatingHours_one_card_per_configured_unit
              (("kiosk", JNull) :: mixed_entries) [] Spinner)
    as (cards & Hr & Hl & _).
  - intros u h Hin Hc.
    repeat (destruct Hin as [E|Hin];
            [injection E as <- <-; try (now elim Hc);
             (split; [discriminate|]; intros props E; injection E as <-;
              apply card_values_pass_listed; reflexivity)|]).
    contradiction.
  - exists cards. split; [exact Hr | exact Hl].
Defined.

Lemma card_status_empty (unit : string) (config : string) :
  unitsConfig unit = Some (Some config) -> card_status unit [] = Open.
Proof.
  unfold unitsConfig, card_status, status_get. cbn [assoc].
  destruct (unit =? "restaurant")%string eqn:E1;
    [apply String.eqb_eq in E1; now subst|].
  destruct (unit =? "supermarket")%string eqn:E2;
    [apply String.eqb_eq in E2; now subst|].
  destruct (unit =? "service_bay")%string eqn:E3;
    [apply String.eqb_eq in E3; now subst|].
  destruct (unit =? "car_wash")%string eqn:E4;
    [apply String.eqb_eq in E4; now subst|].
  destruct (existsb (String.eqb unit) object_prototype_names); discriminate.
Qed.

(** The first rendering of a new manager happens before any status is
    computed: every card of a configured unit starts with the badge Open,
    whatever its hours are. *)
Theorem fetchOperatingHours_first_badges_open
    (response : option json) (shown : content) (m : Manager) :
  fetchOperatingHours response (new_manager (Some shown)) = (m, true) ->
  exists cards,
    hoursContainer m = Some (Cards cards) /\
    currentStatus m = [] /\
    Forall (fun c => label c <> None -> badge (card c) = Open) cards.
Proof.
  unfold fetchOperatingHours. cbv zeta.
  destruct response as [r|]; [|discriminate].
  destruct (get (Some r) "hours") as [[hours|]|]; try discriminate.
  destruct (truthy (Some hours)) eqn:Th; [|discriminate].
  unfold renderOperatingHours.
  cbn [hoursContainer hoursData currentStatus showHoursLoading set_container
       new_manager].
  rewrite Th. cbn [negb].
  destruct (forEach_render (Object_entries hours) [] []) as [cards o] eqn:Er.
  destruct o; [|discriminate].
  intros H. injection H as <-.
  exists cards. split; [reflexivity|]. split; [reflexivity|].
  assert (G : forall entries acc cards',
             Forall (fun c => label c <> None -> badge (card c) = Open) acc ->
             forEach_render entries [] acc = (cards', Returned) ->
             Forall (fun c => label c <> None -> badge (card c) = Open) cards').
  { clear. induction entries as [|[u h] tl IH]; intros acc cards' Hacc; cbn.
    - intros H. now injection H as <-.
    - destruct (unitsConfig u) as [cfg|] eqn:Ec; [|now apply IH].
      rewrite createHoursCard_hoursHtml.
      destruct (hoursHtml h) as [html|]; [|discriminate].
      apply IH. apply Forall_app. split; [exact Hacc|].
      constructor; [|constructor]. cbn. intros Hl.
      destruct cfg as [l|]; [|now elim Hl].
      now apply (card_status_empty u l). }
  apply (G (Object_entries hours) [] cards); [constructor | exact Er].
Qed.

Lemma fetchOperatingHours_first_badges_open_witness :
  exists cards,
    hoursContainer
      (fst (fetchOperatingHours (Some (JObj [("hours", car_wash_schedule)]))
              (new_manager (Some Alert))))
    = Some (Cards cards) /\
    Forall (fun c => label c <> None -> badge (card c) = Open) cards.
Proof.
  destruct (fetchOperatingHours_first_badges_open
              (Some (JObj [("hours", car_wash_schedule)])) Alert
              (fst (fetchOperatingHours (Some (JObj [("hours", car_wash_schedule)]))
                      (new_manager (Some Alert)))))
    as (cards & Hc & _ & Hall).
  - reflexivity.
  - exists cards. split; [exact Hc | exact Hall].
Defined.

Lemma update_cards_cards_of (st st' : status_map) (entries : list (string * json)) :
  cards_can_be_built entries ->
  (forall k, assoc k st' = None -> assoc k st = None) ->
  forall index,
    (forall j u, nth_error (rendered_units entries) j = Some u ->
                 unit_at (index + j) = u) ->
    update_cards st' index (cards_of entries st) = cards_of entries st'.
Proof.
  intros Hb Hkeys. unfold rendered_units.
  induction entries as [|[u h] tl IH]; intros index Hal; cbn; [reflexivity|].
  specialize (IH (cards_can_be_built_tail _ _ Hb)).
  cbn in Hal.
  destruct (unitsConfig u) as [cfg|] eqn:Ec; [|now apply IH].
  destruct (Hb u h (or_introl eq_refl) ltac:(congruence)) as [Hn Hcv].
  destruct (hoursHtml_returns h Hn Hcv) as [html Hh].
  rewrite !createHoursCard_hoursHtml, Hh. cbn [update_cards]. f_equal.
  - unfold update_card.
    assert (Hu : unit_at index = u)
      by (rewrite <- (Nat.add_0_r index); now apply Hal).
    rewrite Hu. unfold set_badge, card_status. cbn.
    destruct (status_get st' u) eqn:Es'; try reflexivity.
    unfold status_get in *.
    destruct (assoc u st') eqn:Ea'; [discriminate|].
    now rewrite (Hkeys u Ea'), Es'.
  - apply IH. intros j u' Hj.
    rewrite Nat.add_succ_l, <- Nat.add_succ_r. now apply Hal.
Qed.

Lemma aligned_unit_at (entries : list (string * json)) (rest : list string) :
  (rendered_units entries ++ rest)%list = units ->
  forall j u, nth_error (rendered_units entries) j = Some u -> unit_at (0 + j) = u.
Proof.
  intros Hp j u Hj. unfold unit_at. rewrite <- Hp. cbn [Nat.add].
  rewrite nth_error_app1 by (apply nth_error_Some; congruence).
  now rewrite Hj.
Qed.

(** The page stays in step with the status map when the configured units
    come in the order of the fixed list of [updateStatusDisplay] and the
    listed values are plain text: if the cards are those rendered from the
    current status map, then after a pass that returns they are those that
    would be rendered from the new one. *)
Theorem checkCurrentStatus_method_keeps_cards_in_step
    (entries : list (string * json)) (now : Date) (st : status_map)
    (rest : list string) :
  (rendered_units entries ++ rest)%list = units ->
  cards_can_be_built entries ->
  cards_are_plain entries ->
  snd (checkCurrentStatus (JObj entries) now st) = Returned ->
  let st' := fst (checkCurrentStatus (JObj entries) now st) in
  checkCurrentStatus_method now
    (mkManager (JObj entries) st (Some (Cards (cards_of entries st))))
  = (mkManager (JObj entries) st' (Some (Cards (cards_of entries st'))), Returned).
Proof.
  intros Hal Hb _ Hret st'. unfold checkCurrentStatus_method.
  cbn [hoursData currentStatus hoursContainer truthy negb].
  destruct (checkCurrentStatus (JObj entries) now st) as [st1 o] eqn:E.
  cbn in Hret, st'. subst o st'.
  unfold updateStatusDisplay. cbn [hoursData currentStatus hoursContainer].
  rewrite (update_cards_cards_of st st1 entries Hb); [reflexivity | |].
  - intros k Hk.
    assert (Hst1 : st1 = fst (checkCurrentStatus (JObj entries) now st))
      by now rewrite E.
    destruct (assoc k st) eqn:Ek; [|reflexivity].
    exfalso.
    apply (checkCurrentStatus_keeps_keys entries now st k); [congruence|].
    now rewrite <- Hst1.
  - now apply aligned_unit_at with (rest := rest).
Qed.

Lemma checkCurrentStatus_method_keeps_cards_in_step_witness :
  checkCurrentStatus_method (mkDate Tuesday 7 30)
    (mkManager restaurant_schedule [("restaurant", Open)]
       (Some (Cards (cards_of restaurant_entries [("restaurant", Open)]))))
  = (mkManager restaurant_schedule [("restaurant", Closed)]
       (Some (Cards (cards_of restaurant_entries [("restaurant", Closed)]))),
     Returned).
Proof.
  refine (checkCurrentStatus_method_keeps_cards_in_step restaurant_entries
            (mkDate Tuesday 7 30) [("restaurant", Open)]
            ["supermarket"; "service_bay"; "car_wash"] _ _ _ _).
  - reflexivity.
  - intros u h [E|[]] _. injection E as <- <-.
    split; [discriminate|]. intros props E. injection E as <-.
    apply card_values_pass_listed. reflexivity.
  - intros u props [E|[]] _. injection E as <- <-.
    apply card_values_pass_listed. reflexivity.
  - reflexivity.
Defined.

(** Out of that order the badges go to the wrong cards: with the
    supermarket listed first, its card shows the restaurant's status. *)
Example swapped_units_swap_badges :
  let entries :=
    [("supermarket", JObj [("default", window "08:00" "09:00")]);
     ("restaurant", JObj [("default", window "08:00" "20:00")])] in
  let m := fst (init (Some (JObj [("hours", JObj entries)])) (mkDate Monday 12 0)
                  (new_manager (Some Spinner))) in
  currentStatus m = [("supermarket", Closed); ("restaurant", Open)] /\
  hoursContainer m
  = Some (Cards [mkHoursCard (Some "Supermarket") (mkCard Open []);
                 mkHoursCard (Some "Restaurant") (mkCard Closed [])]).
Proof. split; reflexivity. Qed.

(** [init] on a new manager, for a response whose [hours] is a schedule in
    the order of the fixed list whose cards can be built from plain text:
    the status map is the result of the pass from the empty map, and each
    configured unit's card shows the status just computed for it, or Open
    when none was. *)
Theorem init_shows_computed_status
    (r : json) (entries : list (string * json)) (now : Date)
    (shown : content) (rest : list string) :
  get (Some r) "hours" = Normal (Some (JObj entries)) ->
  (rendered_units entries ++ rest)%list = units ->
  cards_can_be_built entries ->
  cards_are_plain entries ->
  snd (checkCurrentStatus (JObj entries) now []) = Returned ->
  let st' := fst (checkCurrentStatus (JObj entries) now []) in
  init (Some r) now (new_manager (Some shown))
  = (mkManager (JObj entries) st' (Some (Cards (cards_of entries st'))), Returned) /\
  (forall c, In c (cards_of entries st') ->
     exists unit hours config html,
       In (unit, hours) entries /\ unitsConfig unit = Some config /\
       hoursHtml hours = Normal html /\
       c = mkHoursCard config (mkCard (card_status unit st') html)).
Proof.
  intros Hr Hal Hb Hpl Hret st'. split; [|intros c; apply cards_of_In].
  unfold init, fetchOperatingHours. cbv zeta. rewrite Hr.
  cbn [truthy]. unfold renderOperatingHours.
  cbn [hoursContainer hoursData currentStatus showHoursLoading set_container
       new_manager truthy negb Object_entries].
  rewrite (forEach_render_cards_of entries [] Hb []).
  cbn [app fst hoursContainer hoursData currentStatus].
  exact (checkCurrentStatus_method_keeps_cards_in_step entries now [] rest
           Hal Hb Hpl Hret).
Qed.

Lemma init_shows_computed_status_witness :
  init (Some (JObj [("hours", restaurant_schedule)])) (mkDate Tuesday 7 30)
    (new_manager (Some Alert))
  = (mkManager restaurant_schedule [("restaurant", Closed)]
       (Some (Cards (cards_of restaurant_entries [("restaurant", Closed)]))),
     Returned).
Proof.
  refine (proj1 (init_shows_computed_status (JObj [("hours", restaurant_schedule)])
                   restaurant_entries (mkDate Tuesday 7 30) Alert
                   ["supermarket"; "service_bay"; "car_wash"] _ _ _ _ _)).
  - reflexivity.
  - reflexivity.
  - intros u h [E|[]] _. injection E as <- <-.
    split; [discriminate|]. intros props E. injection E as <-.
    apply card_values_pass_listed. reflexivity.
  - intros u props [E|[]] _. injection E as <- <-.
    apply card_values_pass_listed. reflexivity.
  - reflexivity.
Defined.

(** When the hours cannot be loaded ([apiCall] rejects, the response is
    [null], or its [hours] is missing or falsy) [init] leaves a new manager
    without data and without any status: the container shows the alert and
    the status pass does nothing. *)
Theorem init_without_hours
    (response : option json) (now : Date) (shown : content) :
  (forall r hours, response = Some r ->
     get (Some r) "hours" = Normal (Some hours) -> truthy (Some hours) = false) ->
  fetchOperatingHours response (new_manager (Some shown))
  = (mkManager JNull [] (Some Alert), false) /\
  init response now (new_manager (Some shown))
  = (mkManager JNull [] (Some Alert), Returned).
Proof.
  intros H.
  assert (Hf : fetchOperatingHours response (new_manager (Some shown))
               = (mkManager JNull [] (Some Alert), false)).
  { unfold fetchOperatingHours. cbv zeta.
    destruct response as [r|]; [|reflexivity].
    destruct (get (Some r) "hours") as [[hours|]|] eqn:Eg; try reflexivity.
    now rewrite (H r hours eq_refl Eg). }
  split; [exact Hf|]. unfold init. rewrite Hf. reflexivity.
Qed.

Lemma init_without_hours_witness :
  init (Some (JObj [("error", JStr "unavailable")])) (mkDate Monday 12 0)
    (new_manager (Some Spinner))
  = (mkManager JNull [] (Some Alert), Returned).
Proof.
  refine (proj2 (init_without_hours (Some (JObj [("error", JStr "unavailable")]))
                   (mkDate Monday 12 0) Spinner _)).
  intros r hours E. injection E as <-. discriminate.
Defined.

(* ------------------------------------------------------------------ *)
(** ** The phone field *)

Lemma all_digits_digits_only (s : string) : all_digits (digits_only s) = true.
Proof.
  induction s as [|c tl IH]; cbn; [reflexivity|].
  destruct (is_decimal_digit c) eqn:E; cbn; [now rewrite E|exact IH].
Qed.

Lemma digits_only_all_digits (s : string) :
  all_digits s = true -> digits_only s = s.
Proof.
  induction s as [|c tl IH]; cbn; [reflexivity|].
  intros H. apply andb_true_iff in H as [Hc Htl].
  now rewrite Hc, (IH Htl).
Qed.

Lemma digits_only_append (s t : string) :
  digits_only (s ++ t) = (digits_only s ++ digits_only t)%string.
Proof.
  induction s as [|c tl IH]; cbn; [reflexivity|].
  destruct (is_decimal_digit c); cbn; now rewrite IH.
Qed.

Lemma all_digits_slice_to (n : nat) (s : string) :
  all_digits s = true -> all_digits (slice_to n s) = true.
Proof.
  revert s. induction n as [|n IH]; intros [|c tl]; cbn; try reflexivity.
  intros H. apply andb_true_iff in H as [Hc Htl].
  now rewrite Hc, (IH tl Htl).
Qed.

Lemma length_slice_to (n : nat) (s : string) :
  (String.length (slice_to n s) <= n)%nat.
Proof.
  revert s. induction n as [|n IH]; intros [|c tl]; cbn; try lia.
  specialize (IH tl). lia.
Qed.

Lemma slice_to_short (n : nat) (s : string) :
  (String.length s <= n)%nat -> slice_to n s = s.
Proof.
  revert s. induction n as [|n IH]; intros [|c tl]; cbn; try reflexivity; try lia.
  intros H. f_equal. apply IH. lia.
Qed.

Lemma slice_to_append (s t : string) :
  slice_to (String.length s) (s ++ t) = s.
Proof.
  induction s as [|c tl IH]; cbn; [now destruct t|]. now rewrite IH.
Qed.

(** Whatever is typed, the phone field holds at most nine characters, all
    of them digits; filtering what the field holds changes nothing. *)
Theorem phone_input_keeps_nine_digits (value : string) :
  all_digits (phone_input value) = true /\
  (String.length (phone_input value) <= 9)%nat /\
  phone_input (phone_input value) = phone_input value.
Proof.
  assert (Hd : all_digits (phone_input value) = true)
    by (apply all_digits_slice_to, all_digits_digits_only).
  assert (Hl : (String.length (phone_input value) <= 9)%nat)
    by apply length_slice_to.
  split; [exact Hd|]. split; [exact Hl|].
  unfold phone_input at 1.
  rewrite (digits_only_all_digits _ Hd). now apply slice_to_short.
Qed.

(** A value of up to nine digits is left as typed, and once nine digits
    are in the field anything typed after them is dropped. *)
Theorem phone_input_accepts_digits (value : string) :
  all_digits value = true ->
  (String.length value <= 9)%nat ->
  phone_input value = value /\
  (String.length value = 9%nat -> forall typed, phone_input (value ++ typed) = value).
Proof.
  intros Hd Hl. split.
  - unfold phone_input. rewrite (digits_only_all_digits _ Hd).
    now apply slice_to_short.
  - intros H9 typed. unfold phone_input.
    rewrite digits_only_append, (digits_only_all_digits _ Hd), <- H9.
    apply slice_to_append.
Qed.

Lemma phone_input_accepts_digits_witness :
  phone_input "712345678" = "712345678" /\
  phone_input ("712345678" ++ "9 ext. 4") = "712345678".
Proof.
  destruct (phone_input_accepts_digits "712345678") as [H1 H2].
  - reflexivity.
  - cbn. lia.
  - split; [exact H1 | exact (H2 eq_refl "9 ext. 4")].
Defined.

(* ------------------------------------------------------------------ *)
(** ** Submitting the inquiry form *)

Lemma trim_all_whitespace (s : string) :
  all_whitespace s = true -> trim s = EmptyString.
Proof.
  unfold trim. induction s as [|c tl IH]; cbn; [reflexivity|].
  intros H. apply andb_true_iff in H as [Hc Htl].
  rewrite Hc. now apply IH.
Qed.

Section Submit.

Variable validateEmail : string -> bool.
Variable validatePhone : string -> bool.
Variable getPhoneWithCountryCode : string -> string.

(** Nothing is sent unless every check passes: for a form whose text
    fields hold ASCII text, [apiCall] gets a body exactly when the form data
    validates, and the body is the form data (fields trimmed) with the phone
    number given its country code. *)
Theorem handleFormSubmit_sends_only_valid_data
    (f : Inquiry.Form) (timestamp pageUrl : string) (result : Inquiry.ApiResult) :
  form_is_ascii f = true ->
  let data := Inquiry.formData f timestamp pageUrl in
  let sub :=
    Inquiry.handleFormSubmit validateEmail validatePhone getPhoneWithCountryCode
      f timestamp pageUrl result in
  (forall p, Inquiry.validateInquiryForm validateEmail validatePhone data
     (Inquiry.privacyCheck f) = Some p ->
     Inquiry.request sub = None /\
     Inquiry.toast sub = Inquiry.ValidationToast p /\
     Inquiry.formReset sub = false) /\
  (Inquiry.validateInquiryForm validateEmail validatePhone data
     (Inquiry.privacyCheck f) = None ->
     Inquiry.request sub
     = Some (Inquiry.with_phone data
               (getPhoneWithCountryCode (Inquiry.phone data)))) /\
  (forall d, Inquiry.request sub = Some d ->
     Inquiry.validateInquiryForm validateEmail validatePhone data
     (Inquiry.privacyCheck f) = None /\
     Inquiry.name d = Inquiry.trimmed (Inquiry.nameField f) /\
     Inquiry.message d = Inquiry.trimmed (Inquiry.messageField f) /\
     (2 <= String.length (Inquiry.name d))%nat /\
     (10 <= String.length (Inquiry.message d))%nat /\
     validateEmail (Inquiry.email d) = true /\
     Inquiry.privacyCheck f = Some true).
Proof.
  intros _ data sub. subst sub. unfold Inquiry.handleFormSubmit.
  fold data.
  destruct (Inquiry.validateInquiryForm validateEmail validatePhone data
              (Inquiry.privacyCheck f)) as [p|] eqn:Ev.
  - split; [|split].
    + intros p' H. injection H as <-. cbn. auto.
    + discriminate.
    + cbn. discriminate.
  - assert (Hreq : forall r,
               Inquiry.request
                 match r with
                 | Inquiry.Rejected =>
                     Inquiry.mkSubmission Inquiry.ErrorToast
                       (Some (Inquiry.with_phone data
                                (getPhoneWithCountryCode (Inquiry.phone data))))
                       false (Inquiry.mkButton false Inquiry.SendMessageText)
                 | Inquiry.Resolved response =>
                     match get (Some response) "success" with
                     | Normal success =>
                         if truthy success
                         then Inquiry.mkSubmission Inquiry.SuccessToast
                                (Some (Inquiry.with_phone data
                                         (getPhoneWithCountryCode (Inquiry.phone data))))
                                true (Inquiry.mkButton false Inquiry.OriginalText)
                         else Inquiry.mkSubmission Inquiry.ErrorToast
                                (Some (Inquiry.with_phone data
                                         (getPhoneWithCountryCode (Inquiry.phone data))))
                                false (Inquiry.mkButton false Inquiry.SendMessageText)
                     | TypeError =>
                         Inquiry.mkSubmission Inquiry.ErrorToast
                           (Some (Inquiry.with_phone data
                                    (getPhoneWithCountryCode (Inquiry.phone data))))
                           false (Inquiry.mkButton false Inquiry.SendMessageText)
                     end
                 end
               = Some (Inquiry.with_phone data
                         (getPhoneWithCountryCode (Inquiry.phone data)))).
    { intros [|response]; [reflexivity|].
      destruct (get (Some response) "success") as [success|]; [|reflexivity].
      now destruct (truthy success). }
    split; [discriminate|]. split; [intros _; apply Hreq|].
    intros d Hd. rewrite Hreq in Hd. injection Hd as <-.
    split; [reflexivity|]. cbn [Inquiry.with_phone Inquiry.name Inquiry.message
                                Inquiry.email].
    unfold Inquiry.validateInquiryForm in Ev.
    destruct (Inquiry.name data =? "")%string eqn:En; [discriminate Ev|].
    destruct (String.length (Inquiry.name data) <? 2)%nat eqn:Eln; [discriminate Ev|].
    cbn [orb] in Ev.
    destruct (validateEmail (Inquiry.email data)) eqn:Ee; [|discriminate Ev].
    destruct (validatePhone (Inquiry.phone data)); [|discriminate Ev].
    cbn [negb] in Ev.
    destruct (Inquiry.serviceType data =? "")%string; [discriminate Ev|].
    destruct (Inquiry.message data =? "")%string; [discriminate Ev|].
    destruct (String.length (Inquiry.message data) <? 10)%nat eqn:Elm;
      [discriminate Ev|].
    cbn [orb] in Ev.
    destruct (Inquiry.privacyCheck f) as [[|]|]; try discriminate Ev.
    apply Nat.ltb_ge in Eln, Elm.
    repeat split; auto.
Qed.

(** However a submission ends, the submit button is enabled again; the
    form is reset exactly when the success toast is shown, which is exactly
    when the data validates and the response has a truthy [success]. *)
Theorem handleFormSubmit_outcome
    (f : Inquiry.Form) (timestamp pageUrl : string) (result : Inquiry.ApiResult) :
  let data := Inquiry.formData f timestamp pageUrl in
  let sub :=
    Inquiry.handleFormSubmit validateEmail validatePhone getPhoneWithCountryCode
      f timestamp pageUrl result in
  Inquiry.disabled (Inquiry.button sub) = false /\
  (Inquiry.formReset sub = true <-> Inquiry.toast sub = Inquiry.SuccessToast) /\
  (Inquiry.toast sub = Inquiry.SuccessToast <->
   Inquiry.validateInquiryForm validateEmail validatePhone data
     (Inquiry.privacyCheck f) = None /\
   exists response success,
     result = Inquiry.Resolved response /\
     get (Some response) "success" = Normal success /\
     truthy success = true).
Proof.
  intros data sub. subst sub. unfold Inquiry.handleFormSubmit.
  fold data.
  destruct (Inquiry.validateInquiryForm validateEmail validatePhone data
              (Inquiry.privacyCheck f)) as [p|] eqn:Ev.
  - cbn [Inquiry.toast Inquiry.formReset Inquiry.button Inquiry.disabled]. split; [reflexivity|]. split; split; try discriminate.
    intros [H _]. discriminate H.
  - destruct result as [|response].
    + cbn [Inquiry.toast Inquiry.formReset Inquiry.button Inquiry.disabled]. split; [reflexivity|]. split; split; try discriminate.
      intros [_ (r & s & H & _)]. discriminate H.
    + destruct (get (Some response) "success") as [success|] eqn:Eg.
      * destruct (truthy success) eqn:Ts; cbn [Inquiry.toast Inquiry.formReset Inquiry.button Inquiry.disabled].
        -- split; [reflexivity|]. split; split; try reflexivity.
           intros _. split; [reflexivity|]. exists response, success. auto.
        -- split; [reflexivity|]. split; split; try discriminate.
           intros [_ (r & s & H & Hg & Ht)].
           assert (r = response) by congruence. subst r. congruence.
      * cbn [Inquiry.toast Inquiry.formReset Inquiry.button Inquiry.disabled]. split; [reflexivity|]. split; split; try discriminate.
        intros [_ (r & s & H & Hg & _)].
        assert (r = response) by congruence. subst r. congruence.
Qed.

(** A blank name - only whitespace, or no name field at all - is refused
    with the name toast whatever the other fields hold, and nothing is
    sent. *)
Theorem handleFormSubmit_blank_name
    (f : Inquiry.Form) (timestamp pageUrl : string) (result : Inquiry.ApiResult) :
  match Inquiry.nameField f with
  | Some v => all_whitespace v = true
  | None => True
  end ->
  Inquiry.handleFormSubmit validateEmail validatePhone getPhoneWithCountryCode
    f timestamp pageUrl result
  = Inquiry.mkSubmission (Inquiry.ValidationToast Inquiry.BadName) None false
      (Inquiry.mkButton false Inquiry.OriginalText).
Proof.
  intros H. unfold Inquiry.handleFormSubmit.
  assert (Hn : Inquiry.name (Inquiry.formData f timestamp pageUrl) = EmptyString).
  { cbn. destruct (Inquiry.nameField f) as [v|]; cbn; [|reflexivity].
    now apply trim_all_whitespace. }
  unfold Inquiry.validateInquiryForm. rewrite Hn. reflexivity.
Qed.

End Submit.

Lemma handleFormSubmit_sends_only_valid_data_witness :
  Inquiry.request
    (Inquiry.handleFormSubmit (fun _ => true) (fun _ => true)
       (fun p => ("+254" ++ p)%string)
       (Inquiry.mkForm (Some " Amina W. ") (Some "a@b.co") (Some "712345678")
          (Some "restaurant") (Some "A table for four, please.") (Some true))
       "2025-01-06T09:00:00.000Z" "https://example.org/contact" Inquiry.Rejected)
  = Some (Inquiry.mkData "Amina W." "a@b.co" "+254712345678" "restaurant"
            "A table for four, please." "2025-01-06T09:00:00.000Z"
            "https://example.org/contact").
Proof.
  refine (proj1 (proj2 (handleFormSubmit_sends_only_valid_data
                          (fun _ => true) (fun _ => true)
                          (fun p => ("+254" ++ p)%string)
                          (Inquiry.mkForm (Some " Amina W. ") (Some "a@b.co")
                             (Some "712345678") (Some "restaurant")
                             (Some "A table for four, please.") (Some true))
                          "2025-01-06T09:00:00.000Z" "https://example.org/contact"
                          Inquiry.Rejected _)) _).
  - reflexivity.
  - reflexivity.
Defined.

Lemma handleFormSubmit_blank_name_witness :
  Inquiry.handleFormSubmit (fun _ => true) (fun _ => true) (fun p => p)
    (Inquiry.mkForm (Some "   ") (Some "a@b.co") (Some "712345678")
       (Some "restaurant") (Some "A table for four, please.") (Some true))
    "2025-01-06T09:00:00.000Z" "https://example.org/contact" Inquiry.Rejected
  = Inquiry.mkSubmission (Inquiry.ValidationToast Inquiry.BadName) None false
      (Inquiry.mkButton false Inquiry.OriginalText).
Proof.
  apply (handleFormSubmit_blank_name (fun _ => true) (fun _ => true) (fun p => p)).
  reflexivity.
Defined.
